(** * A shallow embedding of the typed query builder

    The development follows the layout of the repository:
    - [models/expressions]: join factories, logical combinators, random
      expressions;
    - [models/types]: the concrete column types;
    - [models/core.py]: columns, models, and the query hierarchy with its
      rendering to SQL text plus a map of bound parameters.

    Python exceptions are values of [exn]; a function that can raise returns
    a [result].  Code that mutates [self.parameters] and [self.tables] while
    it renders runs in a state-and-error monad over those two fields. *)

From stdpp Require Import gmap strings list pretty.
From Stdlib Require Import ZArith Ascii.

#[local] Set Warnings "-register-all,-clear-no-such-hyp".
#[local] Open Scope Z_scope.

(** ** Text *)

(** Python [str] values are modelled as byte strings holding ASCII text. *)

Definition ascii_in_range (lo hi c : ascii) : bool :=
  (Ascii.nat_of_ascii lo <=? Ascii.nat_of_ascii c)%nat
  && (Ascii.nat_of_ascii c <=? Ascii.nat_of_ascii hi)%nat.

(** [str.lower], on ASCII letters. *)
Definition lower_char (c : ascii) : ascii :=
  if ascii_in_range "A" "Z" c
  then Ascii.ascii_of_nat (Ascii.nat_of_ascii c + 32)
  else c.

Fixpoint lower (s : string) : string :=
  match s with
  | EmptyString => EmptyString
  | String c s' => String (lower_char c) (lower s')
  end.

(** [str.isspace] on one ASCII character: tab, line feed, vertical tab, form
    feed, carriage return, the four separators 0x1c-0x1f, and space. *)
Definition isspace (c : ascii) : bool :=
  let n := Ascii.nat_of_ascii c in
  ((9 <=? n) && (n <=? 13) || (28 <=? n) && (n <=? 32))%nat.

Fixpoint lstrip (s : string) : string :=
  match s with
  | EmptyString => EmptyString
  | String c s' => if isspace c then lstrip s' else s
  end.

Fixpoint rstrip (s : string) : string :=
  match s with
  | EmptyString => EmptyString
  | String c s' =>
      match rstrip s' with
      | EmptyString => if isspace c then EmptyString else String c EmptyString
      | r => String c r
      end
  end.

(** [str.strip()] *)
Definition strip (s : string) : string := lstrip (rstrip s).

(** [sep.join(parts)] *)
Definition join (sep : string) (parts : list string) : string :=
  String.concat sep parts.

(** [s[:-n]] for a positive literal [n]. *)
Definition drop_last (n : nat) (s : string) : string :=
  String.substring 0 (String.length s - n) s.

(** Truth value of a [str]. *)
Definition nonempty (s : string) : bool :=
  match s with EmptyString => false | _ => true end.

(** [sub in s] *)
Fixpoint contains (sub s : string) : bool :=
  String.prefix sub s
  || match s with
     | EmptyString => false
     | String _ s' => contains sub s'
     end.

(** The double quote, line feed and tab characters of the SQL text. *)
Definition dq : string := String (Ascii.ascii_of_nat 34) EmptyString.
Definition LF : string := String (Ascii.ascii_of_nat 10) EmptyString.
Definition TAB : string := String (Ascii.ascii_of_nat 9) EmptyString.

(** ** Exceptions and results *)

Inductive exn_class :=
  | ValueError | TypeError | AttributeError | InvalidOperation.

(** An exception: its class and the literal text of its message (values
    interpolated into the message by the source are left out). *)
Inductive exn := Raise (cls : exn_class) (msg : string).

Definition exn_cls (e : exn) : exn_class := let 'Raise c _ := e in c.

#[global] Instance exn_class_eq_dec : EqDecision exn_class.
Proof. solve_decision. Defined.

Inductive result (A : Type) :=
  | Ok (a : A)
  | Err (e : exn).
Arguments Ok {A} a.
Arguments Err {A} e.

#[global] Instance result_ret : MRet result := @Ok.
#[global] Instance result_bind : MBind result := λ A B k r,
  match r with
  | Ok a => k a
  | Err e => Err e
  end.

Definition is_ok {A} (r : result A) : bool :=
  match r with Ok _ => true | Err _ => false end.

Definition raises {A} (r : result A) (c : exn_class) : Prop :=
  ∃ msg, r = Err (Raise c msg).

(** ** Python values *)

Inductive PyType :=
  | T_NoneType | T_bool | T_int | T_float | T_str
  | T_Decimal | T_date | T_datetime | T_RandExpr.

#[global] Instance PyType_eq_dec : EqDecision PyType.
Proof. solve_decision. Defined.

(** The payload of the values whose arithmetic is left to the interpreter. *)
Class Carriers := {
  pyfloat : Type;
  decimal : Type;
  date : Type;
  datetime : Type;
}.

Section Values.
Context `{Carriers}.

(** [RandExpr] is the frozen dataclass of [expressions/random.py]; its one
    field is [value]. *)
Inductive PyValue :=
  | PyNone
  | PyBool (b : bool)
  | PyInt (z : Z)
  | PyFloat (f : pyfloat)
  | PyStr (s : string)
  | PyDecimal (d : decimal)
  | PyDate (d : date)
  | PyDateTime (d : datetime)
  | RandExpr (value : string).

(** [type(value)] *)
Definition type_of (value : PyValue) : PyType :=
  match value with
  | PyNone => T_NoneType
  | PyBool _ => T_bool
  | PyInt _ => T_int
  | PyFloat _ => T_float
  | PyStr _ => T_str
  | PyDecimal _ => T_Decimal
  | PyDate _ => T_date
  | PyDateTime _ => T_datetime
  | RandExpr _ => T_RandExpr
  end.

End Values.

(** The column classes of [models/types].  Subscripting [Numeric] or
    [VarChar] builds a new class object at every call; [uid] tells those
    class objects apart. *)
Inductive ColumnType :=
  | Boolean
  | Integer
  | SmallInt
  | Serial
  | SmallSerial
  | Numeric
  | Numeric_ (uid : nat) (precision scale : Z)
  | Date
  | TimeStampTZ
  | VarChar
  | VarChar_ (uid : nat) (length : Z).

#[global] Instance ColumnType_eq_dec : EqDecision ColumnType.
Proof. solve_decision. Defined.

(** What the interpreter and its standard library do on the payloads, on
    text, and when they iterate a set.  [None] stands for a raised
    exception. *)
Class Builtins `{Carriers} := {
  (* int(...) *)
  int_of_str : string → option Z;
  int_of_float : pyfloat → option Z;
  int_of_decimal : decimal → option Z;
  (* float(...) *)
  float_of_int : Z → option pyfloat;
  float_of_str : string → option pyfloat;
  float_of_decimal : decimal → option pyfloat;
  (* Decimal(...) *)
  decimal_of_int : Z → decimal;
  decimal_of_float : pyfloat → decimal;
  decimal_of_str : string → option decimal;
  (* date(...) and datetime(...) on one argument: only the pickled form *)
  date_of_str : string → option date;
  datetime_of_str : string → option datetime;
  (* truth values *)
  float_is_zero : pyfloat → bool;
  decimal_is_zero : decimal → bool;
  (* str(...) and repr(...) *)
  str_of_float : pyfloat → string;
  str_of_decimal : decimal → string;
  str_of_date : date → string;
  str_of_datetime : datetime → string;
  repr_of_str : string → string;
  object_repr : ColumnType → string → string;
  (* parsers of the datetime module *)
  date_fromisoformat : string → option date;
  datetime_fromisoformat : string → option datetime;
  datetime_strptime : string → string → option datetime;
  (* a <= b between an int and a float or a Decimal; a Decimal NaN raises *)
  int_le_float : Z → pyfloat → bool;
  float_le_int : pyfloat → Z → bool;
  int_le_decimal : Z → decimal → option bool;
  decimal_le_int : decimal → Z → option bool;
  (* the order in which a set of types is iterated *)
  iter_set : list PyType → list PyType;
  iter_set_perm : ∀ l, iter_set l ≡ₚ l;
}.

Section Runtime.
Context `{Builtins}.

Definition int_of_bool (b : bool) : Z := if b then 1 else 0.

(** [bool(value)] *)
Definition py_bool (value : PyValue) : bool :=
  match value with
  | PyNone => false
  | PyBool b => b
  | PyInt z => negb (z =? 0)
  | PyFloat f => negb (float_is_zero f)
  | PyStr s => nonempty s
  | PyDecimal d => negb (decimal_is_zero d)
  | PyDate _ | PyDateTime _ | RandExpr _ => true
  end.

(** [int(value)] *)
Definition py_int (value : PyValue) : option Z :=
  match value with
  | PyBool b => Some (int_of_bool b)
  | PyInt z => Some z
  | PyFloat f => int_of_float f
  | PyStr s => int_of_str s
  | PyDecimal d => int_of_decimal d
  | _ => None
  end.

(** [float(value)] *)
Definition py_float (value : PyValue) : option pyfloat :=
  match value with
  | PyBool b => float_of_int (int_of_bool b)
  | PyInt z => float_of_int z
  | PyFloat f => Some f
  | PyStr s => float_of_str s
  | PyDecimal d => float_of_decimal d
  | _ => None
  end.

(** [Decimal(value)] *)
Definition py_Decimal (value : PyValue) : option decimal :=
  match value with
  | PyBool b => Some (decimal_of_int (int_of_bool b))
  | PyInt z => Some (decimal_of_int z)
  | PyFloat f => Some (decimal_of_float f)
  | PyStr s => decimal_of_str s
  | PyDecimal d => Some d
  | _ => None
  end.

(** [str(value)] *)
Definition py_str (value : PyValue) : string :=
  match value with
  | PyNone => "None"
  | PyBool b => if b then "True" else "False"
  | PyInt z => pretty z
  | PyFloat f => str_of_float f
  | PyStr s => s
  | PyDecimal d => str_of_decimal d
  | PyDate d => str_of_date d
  | PyDateTime d => str_of_datetime d
  | RandExpr value => "RandExpr(value=" +:+ repr_of_str value +:+ ")"
  end.

(** [_type(value)] for a type object [_type]; [None] when the call raises. *)
Definition construct (_type : PyType) (value : PyValue) : option PyValue :=
  match _type with
  | T_bool => Some (PyBool (py_bool value))
  | T_int => PyInt <$> py_int value
  | T_float => PyFloat <$> py_float value
  | T_str => Some (PyStr (py_str value))
  | T_Decimal => PyDecimal <$> py_Decimal value
  | T_date =>
      match value with PyStr s => PyDate <$> date_of_str s | _ => None end
  | T_datetime =>
      match value with
      | PyStr s => PyDateTime <$> datetime_of_str s
      | _ => None
      end
  | T_NoneType | T_RandExpr => None
  end.

(** [isinstance(value, int)]: [bool] is a subclass of [int]. *)
Definition isinstance_int (value : PyValue) : bool :=
  match value with PyInt _ | PyBool _ => true | _ => false end.

(** The integer a [bool] or [int] stands for. *)
Definition as_int (value : PyValue) : option Z :=
  match value with
  | PyInt z => Some z
  | PyBool b => Some (int_of_bool b)
  | _ => None
  end.

(** [a == b] between instances of [int]. *)
Definition int_eq (a b : PyValue) : option bool :=
  match as_int a, as_int b with
  | Some x, Some y => Some (x =? y)
  | _, _ => None
  end.

Definition unorderable : exn :=
  Raise TypeError "'<=' not supported between instances".
Definition decimal_nan : exn :=
  Raise InvalidOperation "comparison involving NaN".

(** [bound <= value] and [value <= bound] for an [int] bound. *)
Definition int_le_value (bound : Z) (value : PyValue) : result bool :=
  match value with
  | PyBool b => Ok (bound <=? int_of_bool b)
  | PyInt z => Ok (bound <=? z)
  | PyFloat f => Ok (int_le_float bound f)
  | PyDecimal d =>
      match int_le_decimal bound d with
      | Some b => Ok b
      | None => Err decimal_nan
      end
  | _ => Err unorderable
  end.

Definition value_le_int (value : PyValue) (bound : Z) : result bool :=
  match value with
  | PyBool b => Ok (int_of_bool b <=? bound)
  | PyInt z => Ok (z <=? bound)
  | PyFloat f => Ok (float_le_int f bound)
  | PyDecimal d =>
      match decimal_le_int d bound with
      | Some b => Ok b
      | None => Err decimal_nan
      end
  | _ => Err unorderable
  end.

(** [lo <= value <= hi]; [None] is the class attribute left at [None]. *)
Definition chained_le (lo : option Z) (value : PyValue) (hi : option Z)
  : result bool :=
  match lo with
  | None => Err unorderable
  | Some lo =>
      b ← int_le_value lo value;
      if b : bool then
        match hi with
        | None => Err unorderable
        | Some hi => value_le_int value hi
        end
      else Ok false
  end.

End Runtime.

(** ** Column types: [models/types] and the class attributes of
    [Column] *)


(** The class attribute [type], the PostgreSQL type name. *)
Definition type (cls : ColumnType) : string :=
  match cls with
  | Boolean => "BOOLEAN"
  | Integer => "INTEGER"
  | SmallInt => "SMALLINT"
  | Serial => "SERIAL"
  | SmallSerial => "SMALLSERIAL"
  | Numeric => "NUMERIC"
  | Numeric_ _ precision scale =>
      "NUMERIC" +:+ "(" +:+ pretty precision +:+ ", " +:+ pretty scale +:+ ")"
  | Date => "DATE"
  | TimeStampTZ => "TIMESTAMP WITH TIME ZONE"
  | VarChar => "VARCHAR"
  | VarChar_ _ length => "VARCHAR" +:+ "(" +:+ pretty length +:+ ")"
  end.

(** The class attribute [_TYPES], the compatible Python types. *)
Definition _TYPES (cls : ColumnType) : list PyType :=
  match cls with
  | Boolean => [T_bool; T_int]
  | Integer | SmallInt | Serial | SmallSerial => [T_int]
  | Numeric | Numeric_ _ _ _ => [T_int; T_float; T_Decimal]
  | Date => [T_date]
  | TimeStampTZ => [T_datetime]
  | VarChar | VarChar_ _ _ => [T_str]
  end.

(** The class attributes [_MIN] and [_MAX] of the numeric classes, looked up
    along the method resolution order: [Serial] is [_Serial] then [Integer],
    [SmallSerial] is [_Serial] then [SmallInt].  [None] is the attribute
    left at [None] by [Numeric]; the other classes have no such
    attribute. *)
Definition _MIN (cls : ColumnType) : option Z :=
  match cls with
  | Integer => Some (0 - 2 ^ 31)
  | SmallInt => Some (0 - 2 ^ 15)
  | Serial | SmallSerial => Some 0
  | Numeric_ _ precision _ => Some (- 10 ^ precision)
  | _ => None
  end.

Definition _MAX (cls : ColumnType) : option Z :=
  match cls with
  | Integer | Serial => Some (2 ^ 31 - 1)
  | SmallInt | SmallSerial => Some (2 ^ 15 - 1)
  | Numeric_ _ precision _ => Some (10 ^ precision)
  | _ => None
  end.

(** The classes deriving from [_Numeric]. *)
Definition is_Numeric (cls : ColumnType) : bool :=
  match cls with
  | Integer | SmallInt | Serial | SmallSerial | Numeric | Numeric_ _ _ _ =>
      true
  | _ => false
  end.

(** [Numeric[precision, scale]]; [uid] names the class object created. *)
Definition Numeric___class_getitem__ (uid : nat) (precision scale : Z)
  : result ColumnType :=
  if (precision <=? 0) || (scale <? 0) then
    Err (Raise ValueError
           "The precision must be positive, the scale zero or positive")
  else if precision <? scale then
    Err (Raise ValueError "Precision could not be less than scale")
  else Ok (Numeric_ uid precision scale).

(** [VarChar[length]] *)
Definition VarChar___class_getitem__ (uid : nat) (length : option Z)
  : result ColumnType :=
  match length with
  | None => Ok VarChar
  | Some length =>
      if length =? 0 then Ok VarChar
      else if length <=? 0 then
        Err (Raise TypeError "Invalid length specified")
      else Ok (VarChar_ uid length)
  end.

Section Conversion.
Context `{Builtins}.

(** The [for _type in cls._TYPES: try: return _type(value)] loop. *)
Fixpoint first_constructed (types : list PyType) (value : PyValue)
  : option PyValue :=
  match types with
  | [] => None
  | _type :: rest =>
      match construct _type value with
      | Some converted => Some converted
      | None => first_constructed rest value
      end
  end.

(** [Column.convert] *)
Definition Column_convert (cls : ColumnType) (value : PyValue)
  : result PyValue :=
  if bool_decide (type_of value ∈ T_RandExpr :: _TYPES cls) then Ok value
  else
    match first_constructed (iter_set (_TYPES cls)) value with
    | Some converted => Ok converted
    | None => Err (Raise TypeError "Could not convert value")
    end.

(** [Boolean.convert] *)
Definition Boolean_convert (value : PyValue) : result PyValue :=
  match value with
  | PyStr s =>
      Ok (PyBool
            (negb (bool_decide (lower s ∈ ["0"; "f"; "false"; "FALSE"]))))
  | _ => Column_convert Boolean value
  end.

(** [Date.convert] *)
Definition Date_convert (value : PyValue) : result PyValue :=
  match Column_convert Date value with
  | Ok converted => Ok converted
  | Err _ =>
      match value with
      | PyStr s =>
          match date_fromisoformat s with
          | Some d => Ok (PyDate d)
          | None => Err (Raise TypeError "Invalid format for DATE")
          end
      | _ => Err (Raise TypeError "fromisoformat: argument must be str")
      end
  end.

(** The three converters [TimeStampTZ.convert] falls back on, in order. *)
Definition TimeStampTZ_converters : list (string → option datetime) :=
  [ datetime_fromisoformat;
    (λ value, datetime_strptime (value +:+ "00") "%Y-%m-%d %H:%M:%S.%f%z");
    (λ value, datetime_strptime (value +:+ "00") "%Y-%m-%d %H:%M:%S%z") ].

Fixpoint first_converted (converters : list (string → option datetime))
  (value : string) : option datetime :=
  match converters with
  | [] => None
  | converter :: rest =>
      match converter value with
      | Some d => Some d
      | None => first_converted rest value
      end
  end.

(** [TimeStampTZ.convert] *)
Definition TimeStampTZ_convert (value : PyValue) : result PyValue :=
  match Column_convert TimeStampTZ value with
  | Ok converted => Ok converted
  | Err _ =>
      match value with
      | PyStr s =>
          match first_converted TimeStampTZ_converters s with
          | Some d => Ok (PyDateTime d)
          | None =>
              Err (Raise TypeError "Invalid format for TIMESTAMP WITH TIME ZONE")
          end
      | _ => Err (Raise TypeError "fromisoformat: argument must be str")
      end
  end.

(** [cls.convert(value)], resolved on the class. *)
Definition convert (cls : ColumnType) (value : PyValue) : result PyValue :=
  match cls with
  | Boolean => Boolean_convert value
  | Date => Date_convert value
  | TimeStampTZ => TimeStampTZ_convert value
  | _ => Column_convert cls value
  end.

End Conversion.

(** ** Columns and models: [models/core.py] *)

(** [match(r"[A-Za-z0-9_]", name)] as a truth value: [re.match] anchors the
    pattern at the start of [name] only, and the pattern is one character
    class. *)
Definition is_word_char (c : ascii) : bool :=
  ascii_in_range "A" "Z" c || ascii_in_range "a" "z" c
  || ascii_in_range "0" "9" c || bool_decide (c = "_"%char).

Definition re_match_word_char (name : string) : bool :=
  match name with
  | EmptyString => false
  | String c _ => is_word_char c
  end.

Section Model.
Context `{Builtins}.

(** The [default] argument of a column: a value, or a factory to call. *)
Inductive Default :=
  | Value (value : PyValue)
  | Factory (call : unit → PyValue).

(** A column object and a model class.  [ctype] is the class of the column
    object.  The slot [table] is unset until the column is read through its
    model class.  [namespace] lists the attributes of the model class that
    hold columns, by attribute name, in the order of [dir(cls)]. *)
Inductive Column := mkColumn {
  ctype : ColumnType;
  name : string;
  primary_key : bool;
  unique : bool;
  not_null : bool;
  table : option MetaModel;
  foreign_key : option Column;
  _default : Default }
with MetaModel := mkMetaModel {
  __name__ : string;
  __schema__ : string;
  __table__ : string;
  namespace : list (string * Column) }.

(** Class objects are compared by identity; a model class is identified by
    its [__name__]. *)
Definition MetaModel_is (a b : MetaModel) : bool :=
  bool_decide (__name__ a = __name__ b).

(** [table in tables] *)
Definition table_in (table : MetaModel) (tables : list MetaModel) : bool :=
  existsb (MetaModel_is table) tables.

(** [Column.__init__] *)
Definition Column___init__ (cls : ColumnType) (name : string)
    (primary_key unique not_null : bool) (default : Default)
    (foreign_key : option Column) : result Column :=
  if negb (re_match_word_char name) then
    Err (Raise ValueError "Invalid column name")
  else
    Ok {| ctype := cls;
          name := name;
          foreign_key := foreign_key;
          primary_key := primary_key;
          unique := unique || primary_key;
          not_null := not_null || primary_key;
          table := None;
          _default := default |}.

(** [Column.__get__(self, None, owner)]: store the owner, return the
    column. *)
Definition Column___get__ (self : Column) (owner : MetaModel) : Column :=
  {| ctype := ctype self;
     name := name self;
     foreign_key := foreign_key self;
     primary_key := primary_key self;
     unique := unique self;
     not_null := not_null self;
     table := Some owner;
     _default := _default self |}.

(** [self.table], which raises while the slot is unset. *)
Definition Column_table (self : Column) : result MetaModel :=
  match table self with
  | Some owner => Ok owner
  | None => Err (Raise AttributeError "table")
  end.

(** [Column.default] *)
Definition Column_default (self : Column) : PyValue :=
  match _default self with
  | Factory call => call ()
  | Value value => value
  end.

(** [Column.__str__] *)
Definition Column___str__ (self : Column) : result string :=
  owner ← Column_table self;
  Ok (dq +:+ __table__ owner +:+ dq +:+ "." +:+ dq +:+ name self +:+ dq).

(** [MetaModel.__str__] *)
Definition MetaModel___str__ (self : MetaModel) : string :=
  dq +:+ __schema__ self +:+ dq +:+ "." +:+ dq +:+ __table__ self +:+ dq.

(** [MetaModel.columns] *)
Definition columns (cls : MetaModel) : list Column :=
  (λ attr, Column___get__ attr.2 cls) <$> namespace cls.

(** [MetaModel.primary_keys] *)
Definition primary_keys (cls : MetaModel) : list Column :=
  filter (λ column, primary_key column = true) (columns cls).

(** [Column.validate] *)
Definition Column_validate (self : Column) (value : PyValue) : result unit :=
  if not_null self && bool_decide (type_of value = T_NoneType) then
    Err (Raise ValueError "Invalid value - NOT NULL constraint violation")
  else
    match convert (ctype self) value with
    | Ok _ => Ok ()
    | Err e =>
        if bool_decide (exn_cls e ∈ [TypeError; ValueError]) then
          Err (Raise TypeError "Invalid value for type provided")
        else Err e
    end.

(** [_Numeric.validate] *)
Definition _Numeric_validate (self : Column) (value : PyValue) : result unit :=
  _ ← Column_validate self value;
  converted ← convert (ctype self) value;
  in_range ← chained_le (_MIN (ctype self)) converted (_MAX (ctype self));
  if negb in_range then
    Err (Raise ValueError "Invalid value for type - must be in range")
  else Ok ().

(** [self.validate(value)], resolved on the class of the column. *)
Definition validate (self : Column) (value : PyValue) : result unit :=
  if is_Numeric (ctype self) then _Numeric_validate self value
  else Column_validate self value.

(** An instance of a model class: its class and its instance attributes. *)
Record BaseModel := mkBaseModel {
  model : MetaModel;
  __dict__ : gmap string PyValue }.

(** The column held by the class attribute [attr], if there is one. *)
Definition class_attr (cls : MetaModel) (attr : string) : option Column :=
  (λ found, Column___get__ found.2.2 cls)
    <$> list_find (λ entry, entry.1 = attr) (namespace cls).

(** [Column.__get__(self, instance, owner)]; attributes whose name starts
    with an underscore are instance attributes. *)
Definition Column___get__instance (self : Column) (instance : BaseModel)
  : PyValue :=
  let fallback := Column_default self in
  match __dict__ instance !! ("_" +:+ name self) with
  | Some value => value
  | None => fallback
  end.

(** [getattr(instance, attr)]: a column of the class is a data descriptor and
    comes first. *)
Definition getattr (instance : BaseModel) (attr : string) : result PyValue :=
  match class_attr (model instance) attr with
  | Some column => Ok (Column___get__instance column instance)
  | None =>
      match __dict__ instance !! attr with
      | Some value => Ok value
      | None => Err (Raise AttributeError attr)
      end
  end.

(** [setattr(instance, attr, value)], through [Column.__set__] when the class
    attribute is a column. *)
Definition setattr (instance : BaseModel) (attr : string) (value : PyValue)
  : result BaseModel :=
  match class_attr (model instance) attr with
  | Some column =>
      converted ← convert (ctype column) value;
      Ok {| model := model instance;
            __dict__ := <["_" +:+ name column := converted]> (__dict__ instance) |}
  | None =>
      Ok {| model := model instance;
            __dict__ := <[attr := value]> (__dict__ instance) |}
  end.

(** [BaseModel.__init__], called on the class [cls]. *)
Fixpoint BaseModel___init__from (self : BaseModel)
    (columns : list (string * PyValue)) : result BaseModel :=
  match columns with
  | [] => Ok self
  | (column, value) :: rest =>
      self ← setattr self column value;
      BaseModel___init__from self rest
  end.

Definition BaseModel___init__ (cls : MetaModel)
    (columns : list (string * PyValue)) : result BaseModel :=
  BaseModel___init__from {| model := cls; __dict__ := ∅ |} columns.

(** [isinstance(value, cls)] for an instance of a model class. *)
Definition isinstance (value : BaseModel) (cls : MetaModel) : bool :=
  MetaModel_is (model value) cls.

(** ** Expressions: [models/expressions] and the comparators of [Column] *)

(** A [WhereExpr] / [Expression]: an SQL fragment and its parameters. *)
Definition Expression : Type := string * option (gmap string PyValue).

(** What a comparator is applied to. *)
Inductive Operand :=
  | OfColumn (other : Column)
  | OfValue (other : PyValue).

(** [operator_factory(operator, name)], the comparator it returns. *)
Definition operator_factory (operator name_ : string)
    (self : Column) (other : Operand) : result Expression :=
  match other with
  | OfColumn other =>
      self_str ← Column___str__ self;
      value ← Column___str__ other;
      Ok (self_str +:+ " " +:+ operator +:+ " " +:+ value, None)
  | OfValue other =>
      _ ← validate self other;
      owner ← Column_table self;
      let _name := __table__ owner +:+ "_" +:+ name self +:+ "_" +:+ name_ in
      let value := "%(" +:+ _name +:+ ")s" in
      self_str ← Column___str__ self;
      Ok (self_str +:+ " " +:+ operator +:+ " " +:+ value,
          Some {[ _name := other ]})
  end.

Definition Column___eq__ := operator_factory "=" "eq".
Definition Column___ne__ := operator_factory "!=" "ne".
Definition Column___lt__ := operator_factory "<" "lt".
Definition Column___gt__ := operator_factory ">" "gt".
Definition Column___le__ := operator_factory "<=" "le".
Definition Column___ge__ := operator_factory ">=" "ge".
Definition like := operator_factory "LIKE" "like".

(** [_logical_expr_factory(operator)], the function it returns. *)
Definition _logical_expr_factory (operator : string)
    (expressions : list Expression) : Expression :=
  let '(operands, parameters) :=
    foldl (λ '(operands, parameters) '(expression, param),
             (operands ++ [expression], default ∅ param ∪ parameters))
          ([], ∅) expressions in
  ("(" +:+ join (" " +:+ operator +:+ " ") operands +:+ ")", Some parameters).

Definition and_ := _logical_expr_factory "AND".
Definition or_ := _logical_expr_factory "OR".

(** The set of already joined tables, and a deferred join. *)
Definition Joined : Type := list MetaModel.
Definition JoinFunc : Type := Joined → result (string * MetaModel).

(** [JoinFactory(keyword)(first, second)], that is the closure
    [join_clause]. *)
Definition join_clause (_KEYWORD : string) (first second : Column) : JoinFunc :=
  λ joined,
    first_table ← Column_table first;
    table ←
      (if table_in first_table joined then Column_table second
       else
         second_table ← Column_table second;
         if table_in second_table joined then Ok first_table
         else Err (Raise ValueError "Can't join - unknown tables provided"));
    '(comparator, _) ← Column___eq__ first (OfColumn second);
    let query :=
      _KEYWORD +:+ " " +:+ MetaModel___str__ table
      +:+ LF +:+ TAB +:+ "ON " +:+ comparator in
    Ok (query, table).

Definition join_ := join_clause "JOIN".
Definition inner_join := join_clause "INNER JOIN".
Definition left_outer_join := join_clause "LEFT OUTER JOIN".
Definition right_outer_join := join_clause "RIGHT OUTER JOIN".
Definition full_outer_join := join_clause "FULL OUTER JOIN".

End Model.

(** ** The query hierarchy: [models/core.py] *)

(** What [Query._iter] returns for a list: the list itself, or, when two of
    its elements differ in type, the list boxed as the one element of a new
    list. *)
Inductive Iterated (A : Type) :=
  | Same (items : list A)
  | Boxed (value : list A).
Arguments Same {A} items.
Arguments Boxed {A} value.

Fixpoint _iter_from {A T} `{EqDecision T} (type_ : A → T)
    (_type : option T) (rest : list A) : bool :=
  match rest with
  | [] => true
  | val :: rest =>
      match _type with
      | None => _iter_from type_ (Some (type_ val)) rest
      | Some seen =>
          if bool_decide (seen ≠ type_ val) then false
          else _iter_from type_ _type rest
      end
  end.

(** [Query._iter] on a list whose elements have the types [type_]. *)
Definition _iter {A T} `{EqDecision T} (type_ : A → T) (value : list A)
  : Iterated A :=
  if _iter_from type_ None value then Same value else Boxed value.

Section Queries.
Context `{Builtins}.

(** The two fields of the base class [Query], which rendering mutates. *)
Record Query := mkQuery {
  parameters : gmap string PyValue;
  tables : list MetaModel }.

(** [Query.table], the primary table. *)
Definition Query_table (self : Query) : option MetaModel :=
  match tables self with
  | table :: _ => Some table
  | [] => None
  end.

(** [f"{self.table}"] *)
Definition format_table (table : option MetaModel) : string :=
  match table with
  | Some table => MetaModel___str__ table
  | None => "None"
  end.

(** [self.table.columns], which raises on [None]. *)
Definition table_columns (table : option MetaModel) : result (list Column) :=
  match table with
  | Some table => Ok (columns table)
  | None => Err (Raise AttributeError "columns")
  end.

(** [self.table.primary_keys], which raises on [None]. *)
Definition table_primary_keys (table : option MetaModel)
  : result (list Column) :=
  match table with
  | Some table => Ok (primary_keys table)
  | None => Err (Raise AttributeError "primary_keys")
  end.

(** Rendering reads and writes [self.parameters] and [self.tables]. *)
Definition Render (A : Type) : Type := Query → result (A * Query).

#[global] Instance Render_ret : MRet Render := λ A a self, Ok (a, self).
#[global] Instance Render_bind : MBind Render := λ A B k m self,
  match m self with
  | Ok (a, self) => k a self
  | Err e => Err e
  end.

Definition raise {A} (e : exn) : Render A := λ _, Err e.

Definition lift {A} (r : result A) : Render A := λ self,
  match r with
  | Ok a => Ok (a, self)
  | Err e => Err e
  end.

Definition get_tables : Render (list MetaModel) := λ self,
  Ok (tables self, self).

(** [self.tables.append(table)] *)
Definition tables_append (table : MetaModel) : Render unit := λ self,
  Ok ((), {| parameters := parameters self;
             tables := tables self ++ [table] |}).

(** [self.parameters.update(parameter)] *)
Definition parameters_update (parameter : gmap string PyValue)
  : Render unit := λ self,
  Ok ((), {| parameters := parameter ∪ parameters self;
             tables := tables self |}).

(** [self.parameters[name] = value] *)
Definition parameters_setitem (name : string) (value : PyValue)
  : Render unit := λ self,
  Ok ((), {| parameters := <[name := value]> (parameters self);
             tables := tables self |}).

Definition get_table : Render (option MetaModel) := λ self,
  Ok (Query_table self, self).

(** A [for] loop that threads the local variables [acc] it assigns. *)
Fixpoint for_ {A S} (items : list A) (body : S → A → Render S) (acc : S)
  : Render S :=
  match items with
  | [] => mret acc
  | item :: rest =>
      acc ← body acc item;
      for_ rest body acc
  end.

(** The fields [_FilterQuery] adds to [Query]. *)
Record _FilterQuery := mk_FilterQuery {
  joins : list JoinFunc;
  filters : list Expression;
  order_by : option Column;
  ascending : bool;
  limit : PyValue;
  offset : PyValue }.

(** The [LIMIT] and [OFFSET] steps of [_FilterQuery._render]. *)
Definition render_bound (clause message : string) (bound : PyValue)
    (query : string) : Render string :=
  if py_bool bound then
    if negb (isinstance_int bound)
       || from_option (λ z, z <? 0) false (as_int bound)
    then raise (Raise ValueError message)
    else mret (query +:+ LF +:+ clause +:+ " " +:+ py_str bound +:+ " ")
  else mret query.

(** The loop over [self.joins] in [_FilterQuery._render]. *)
Definition render_joins (joins : list JoinFunc) (query : string)
  : Render string :=
  for_ joins (λ query join,
    joined ← get_tables;
    '(expression, table) ← lift (join joined);
    _ ← tables_append table;
    mret (query +:+ LF +:+ expression +:+ " ")) query.

(** The [WHERE] step. *)
Definition render_filters (filters : list Expression) (query : string)
  : Render string :=
  if bool_decide (filters ≠ []) then
    let query := query +:+ LF +:+ "WHERE" +:+ LF +:+ TAB in
    query_filters ← for_ filters
      (λ query_filters '(expression, parameter),
         let query_filters := query_filters ++ [expression] in
         _ ← match parameter with
             | Some parameter => parameters_update parameter
             | None => mret ()
             end;
         mret query_filters) [];
    mret (query +:+ join (LF +:+ TAB +:+ "AND" +:+ LF +:+ TAB) query_filters)
  else mret query.

(** The [ORDER BY] step.  The conditional expression binds weaker than
    [+]: its first branch is the whole of
    [f"\nORDER BY {self.order_by} " + "ASC"], its second ["DESC" + " "]. *)
Definition render_order_by (order_by : option Column) (ascending : bool)
    (query : string) : Render string :=
  match order_by with
  | Some column =>
      owner ← lift (Column_table column);
      joined ← get_tables;
      if negb (table_in owner joined) then
        raise (Raise ValueError "Can't order by unknown column")
      else if ascending then
        column_str ← lift (Column___str__ column);
        mret (query +:+ (LF +:+ "ORDER BY " +:+ column_str +:+ " " +:+ "ASC"))
      else mret (query +:+ ("DESC" +:+ " "))
  | None => mret query
  end.

(** [_FilterQuery._render] *)
Definition _FilterQuery__render (self : _FilterQuery) : Render string :=
  query ← render_joins (joins self) "";
  query ← render_filters (filters self) query;
  query ← render_order_by (order_by self) (ascending self) query;
  query ← render_bound "LIMIT"
            "Query limit must be non-negative integer value"
            (limit self) query;
  query ← render_bound "OFFSET"
            "Query offset must be non-negative integer value"
            (offset self) query;
  mret (strip query).

(** The parameter name [f"{column.table.__table__}_{column.name}_{number}"]. *)
Definition value_name (owner : MetaModel) (column : Column) (number : nat)
  : string :=
  __table__ owner +:+ "_" +:+ name column +:+ "_" +:+ pretty number.

(** The body of the loop over [columns] in [_ValuesQuery._render]. *)
Definition render_value (number : nat) (value : BaseModel)
    (query : string) (column : Column) : Render string :=
  _ ←
    (if existsb (λ value_column, bool_decide (name value_column = name column))
          (columns (model value))
     then mret ()
     else raise (Raise ValueError "Column not found"));
  held ← lift (getattr value (name column));
  match held with
  | RandExpr expression => mret (query +:+ expression +:+ ", ")
  | _ =>
      owner ← lift (Column_table column);
      let name := value_name owner column number in
      _ ← parameters_setitem name held;
      mret (query +:+ "%(" +:+ name +:+ ")s, ")
  end.

(** The body of the loop over [enumerate(self.values)]. *)
Definition render_row (inserted : MetaModel) (columns : list Column)
    (query : string) (numbered : nat * BaseModel) : Render string :=
  let '(number, value) := numbered in
  if negb (isinstance value inserted) then
    raise (Raise TypeError "Incompatible inserted table")
  else
    query ← for_ columns (render_value number value)
              (query +:+ LF +:+ TAB +:+ "(");
    mret (drop_last 2 query +:+ "),").

(** [_ValuesQuery._render], on [self.values] as [_iter] left it. *)
Definition _ValuesQuery__render (values : Iterated BaseModel)
  : Render string :=
  tables ← get_tables;
  match tables with
  | [] => raise (Raise ValueError "not enough values to unpack")
  | inserted :: redundant =>
      if bool_decide (redundant ≠ []) then
        raise (Raise ValueError "INSERT can be performed only for single table")
      else
        let columns := columns inserted in
        match values with
        | Same values =>
            if bool_decide (columns ≠ []) && bool_decide (values ≠ []) then
              query ← for_ (imap pair values) (render_row inserted columns)
                        (LF +:+ "VALUES");
              mret (drop_last 1 query)
            else mret ""
        | Boxed _ =>
            if bool_decide (columns ≠ []) then
              raise (Raise AttributeError "__table__")
            else mret ""
        end
  end.

(** [", ".join(column.name for column in columns)] *)
Definition column_names (columns : list Column) : string :=
  join ", " (name <$> columns).

(** [str(column)] for each column of a list. *)
Fixpoint column_strs (columns : list Column) : result (list string) :=
  match columns with
  | [] => Ok []
  | column :: rest =>
      column_str ← Column___str__ column;
      rest ← column_strs rest;
      Ok (column_str :: rest)
  end.

(** [SelectQuery] *)
Record SelectQuery := mkSelectQuery {
  Select_query : Query;
  Select_filter : _FilterQuery;
  Select_columns : list Column }.

(** [map(str, self.columns or self.table.columns)] *)
Definition selected_strs (columns_ : Iterated Column)
    (table : option MetaModel) : result (list string) :=
  match columns_ with
  | Boxed value =>
      Ok ["[" +:+ join ", " ((λ column, object_repr (ctype column) (name column))
                              <$> value) +:+ "]"]
  | Same [] =>
      columns ← table_columns table;
      column_strs columns
  | Same columns => column_strs columns
  end.

(** [SelectQuery._render], on [self.columns] as [_iter] left it. *)
Definition SelectQuery__render (columns_ : Iterated Column)
    (self : _FilterQuery) : Render string :=
  table ← get_table;
  strs ← lift (selected_strs columns_ table);
  let selected := join ("," +:+ LF +:+ TAB) strs in
  query ←
    (if nonempty selected then
       let query :=
         "SELECT" +:+ LF +:+ TAB +:+ selected +:+ LF
         +:+ "FROM " +:+ format_table table +:+ LF in
       filter_query ← _FilterQuery__render self;
       mret (query +:+ filter_query)
     else mret "");
  mret (strip query).

(** [InsertQuery] *)
Record InsertQuery := mkInsertQuery {
  Insert_query : Query;
  Insert_values : list BaseModel;
  upsert : bool }.

(** [f"\"{column.name}\" = {column}"] for each column. *)
Fixpoint set_clauses (columns : list Column) : result (list string) :=
  match columns with
  | [] => Ok []
  | column :: rest =>
      column_str ← Column___str__ column;
      rest ← set_clauses rest;
      Ok ((dq +:+ name column +:+ dq +:+ " = " +:+ column_str) :: rest)
  end.

(** [InsertQuery._render] *)
Definition InsertQuery__render (values : Iterated BaseModel) (upsert : bool)
  : Render string :=
  query ← _ValuesQuery__render values;
  query ←
    (if nonempty query then
       table ← get_table;
       columns ← lift (table_columns table);
       keys ← lift (table_primary_keys table);
       let query :=
         "INSERT INTO " +:+ format_table table +:+ LF
         +:+ TAB +:+ "(" +:+ column_names columns +:+ ") " +:+ query in
       query ←
         (if upsert then
            clauses ← lift (set_clauses columns);
            mret (query +:+ (LF +:+ "ON CONFLICT"
                  +:+ LF +:+ TAB +:+ "(" +:+ column_names keys +:+ ")"
                  +:+ LF +:+ "DO UPDATE " +:+ format_table table
                  +:+ LF +:+ "SET" +:+ LF +:+ TAB
                  +:+ join (LF +:+ TAB) clauses))
          else mret query);
       mret (query +:+ (LF +:+ "ON CONFLICT (" +:+ column_names keys
             +:+ ") DO NOTHING"
             +:+ LF +:+ "RETURNING" +:+ LF
             +:+ TAB +:+ "(" +:+ column_names columns +:+ ")"))
     else mret query);
  mret (strip query).

(** [UpdateQuery]; [Update_values] lists the items of the dictionary
    [values] in insertion order. *)
Record UpdateQuery := mkUpdateQuery {
  Update_query : Query;
  Update_filter : _FilterQuery;
  Update_values : list (string * PyValue) }.

(** The body of the loop over [self.values.items()]; it assigns the local
    variables [query] and [updated_column]. *)
Definition render_assignment (locals : string * string)
    (item : string * PyValue) : Render (string * string) :=
  let '(query, _) := locals in
  let '(updated_column, value) := item in
  table ← get_table;
  columns ← lift (table_columns table);
  match list_find (λ column, name column = updated_column) columns with
  | None => raise (Raise ValueError "Column not found in table")
  | Some (_, column) =>
      _ ← lift (validate column value);
      owner ← lift (Column_table column);
      let name_ := __table__ owner +:+ "_" +:+ name column in
      let query :=
        query +:+ LF +:+ TAB +:+ name column +:+ " = %(" +:+ name_ +:+ ")s," in
      _ ← parameters_setitem name_ value;
      mret (query, updated_column)
  end.

(** [UpdateQuery._render] *)
Definition UpdateQuery__render (values : list (string * PyValue))
    (self : _FilterQuery) : Render string :=
  if bool_decide (values ≠ []) then
    table ← get_table;
    let query := "UPDATE " +:+ format_table table +:+ LF +:+ "SET" in
    '(query, updated_column) ← for_ values render_assignment (query, "");
    let query := drop_last 1 query +:+ LF in
    filter_query ← _FilterQuery__render self;
    mret (query +:+ filter_query +:+ LF +:+ "RETURNING " +:+ updated_column)
  else mret "".

(** [DeleteQuery] *)
Record DeleteQuery := mkDeleteQuery {
  Delete_query : Query;
  Delete_filter : _FilterQuery }.

(** [DeleteQuery._render] *)
Definition DeleteQuery__render (self : _FilterQuery) : Render string :=
  table ← get_table;
  match table with
  | Some table =>
      filter_query ← _FilterQuery__render self;
      mret ("DELETE FROM " +:+ MetaModel___str__ table +:+ LF
            +:+ filter_query +:+ LF +:+ "RETURNING *")
  | None => mret ""
  end.

(** The concrete query classes. *)
Inductive ConcreteQuery :=
  | Select (query : SelectQuery)
  | Insert (query : InsertQuery)
  | Update (query : UpdateQuery)
  | Delete (query : DeleteQuery).

(** Construction of a query: [__post_init__] passes the list fields through
    [_iter] and stores [self._render()] as [self._query].  The result is the
    SQL text with the query's parameters and tables as rendering left them.
    Tables are all instances of the one metaclass, joins all functions and
    filters all tuples, so [_iter] returns those lists as they are. *)
Definition render (query : ConcreteQuery) : result (string * Query) :=
  match query with
  | Select query =>
      SelectQuery__render (_iter ctype (Select_columns query))
        (Select_filter query) (Select_query query)
  | Insert query =>
      InsertQuery__render
        (_iter (λ value, __name__ (model value)) (Insert_values query))
        (upsert query) (Insert_query query)
  | Update query =>
      UpdateQuery__render (Update_values query) (Update_filter query)
        (Update_query query)
  | Delete query =>
      DeleteQuery__render (Delete_filter query) (Delete_query query)
  end.

End Queries.

(** ** A runtime and the models of [views], to run the code on *)

(** Decimal integer literals: an optional minus sign, then digits. *)
Fixpoint digits_value (s : string) (acc : Z) : option Z :=
  match s with
  | EmptyString => Some acc
  | String c s' =>
      if ascii_in_range "0" "9" c
      then digits_value s' (10 * acc + (Z.of_nat (Ascii.nat_of_ascii c) - 48))
      else None
  end.

Definition parse_int (s : string) : option Z :=
  match s with
  | EmptyString => None
  | String "-" (String c s') => Z.opp <$> digits_value (String c s') 0
  | String "-" EmptyString => None
  | _ => digits_value s 0
  end.

(** A runtime whose floats and decimals hold whole numbers, whose dates and
    timestamps are day and second counts, and which reads integer literals
    but no float, decimal or date text. *)
Definition whole_carriers : Carriers :=
  {| pyfloat := Z; decimal := Z; date := Z; datetime := Z |}.

Section Whole.
#[local] Existing Instance whole_carriers.

Definition whole_builtins : Builtins :=
  {| int_of_str := parse_int;
     int_of_float := (λ f, Some f) : pyfloat → option Z;
     int_of_decimal := (λ d, Some d) : decimal → option Z;
     float_of_int := (λ z, Some z) : Z → option pyfloat;
     float_of_str := λ _, None;
     float_of_decimal := (λ d, Some d) : decimal → option pyfloat;
     decimal_of_int := (λ z, z) : Z → decimal;
     decimal_of_float := (λ f, f) : pyfloat → decimal;
     decimal_of_str := λ _, None;
     date_of_str := λ _, None;
     datetime_of_str := λ _, None;
     float_is_zero := Z.eqb 0 : pyfloat → bool;
     decimal_is_zero := Z.eqb 0 : decimal → bool;
     str_of_float := (λ f, pretty (f : Z) +:+ ".0") : pyfloat → string;
     str_of_decimal := (λ d, pretty (d : Z)) : decimal → string;
     str_of_date := (λ d, pretty (d : Z)) : date → string;
     str_of_datetime := (λ d, pretty (d : Z)) : datetime → string;
     repr_of_str := λ s, "'" +:+ s +:+ "'";
     object_repr := λ cls name, "<" +:+ type cls +:+ " object>";
     date_fromisoformat := λ _, None;
     datetime_fromisoformat := λ _, None;
     datetime_strptime := λ _ _, None;
     int_le_float := Z.leb : Z → pyfloat → bool;
     float_le_int := Z.leb : pyfloat → Z → bool;
     int_le_decimal := (λ a b, Some (a <=? b)) : Z → decimal → option bool;
     decimal_le_int := (λ a b, Some ((a : Z) <=? b)) : decimal → Z → option bool;
     iter_set := id;
     iter_set_perm := λ l, Permutation_refl l |}.

End Whole.

Section Views.
Context `{Builtins}.


(** [Column(name, ...)] for a name that is accepted. *)
Definition declared (column : result Column) : Column :=
  match column with
  | Ok column => column
  | Err _ => mkColumn VarChar "" false false false None None (Value PyNone)
  end.

(** [views/game_developer.py] *)
Definition GameDeveloper : MetaModel :=
  {| __name__ := "GameDeveloper";
     __schema__ := "gamers";
     __table__ := "game_developer";
     namespace :=
       [ ("id", declared (Column___init__ Serial "id" true false false
                            (Value PyNone) None));
         ("name", declared (Column___init__ (VarChar_ 0 128) "name"
                              false false false (Value PyNone) None)) ] |}.

(** [views/game_category.py] *)
Definition GameCategory : MetaModel :=
  {| __name__ := "GameCategory";
     __schema__ := "gamers";
     __table__ := "game_category";
     namespace :=
       [ ("id", declared (Column___init__ SmallSerial "id" true false false
                            (Value PyNone) None));
         ("name", declared (Column___init__ (VarChar_ 1 64) "name"
                              false false false (Value PyNone) None)) ] |}.

(** [GameDeveloper.id] and [GameCategory.id] *)
Definition GameDeveloper_id : Column :=
  default (declared (Err (Raise AttributeError "id")))
          (class_attr GameDeveloper "id").
Definition GameCategory_id : Column :=
  default (declared (Err (Raise AttributeError "id")))
          (class_attr GameCategory "id").

(** [views/game.py] *)
Definition Game : MetaModel :=
  {| __name__ := "Game";
     __schema__ := "gamers";
     __table__ := "game";
     namespace :=
       [ ("category_id",
          declared (Column___init__ SmallInt "category_id" false false true
                      (Value PyNone) (Some GameCategory_id)));
         ("created_at",
          declared (Column___init__ Date "created_at" false false false
                      (Value PyNone) None));
         ("developer_id",
          declared (Column___init__ Integer "developer_id" false false true
                      (Value PyNone) (Some GameDeveloper_id)));
         ("id",
          declared (Column___init__ Serial "id" true false true
                      (Value PyNone) None));
         ("name",
          declared (Column___init__ (VarChar_ 2 128) "name" false true true
                      (Value (PyStr "")) None));
         ("price",
          declared (Column___init__ (Numeric_ 3 6 2) "price" false false false
                      (Value PyNone) None)) ] |}.

Definition Game_id : Column :=
  default (declared (Err (Raise AttributeError "id"))) (class_attr Game "id").
Definition Game_developer_id : Column :=
  default (declared (Err (Raise AttributeError "developer_id")))
          (class_attr Game "developer_id").
Definition Game_name : Column :=
  default (declared (Err (Raise AttributeError "name")))
          (class_attr Game "name").

(** A developer whose [id] is [2**31] and whose [name] is a random
    expression. *)
Definition out_of_range_developer : BaseModel :=
  {| model := GameDeveloper;
     __dict__ := {[ "_id" := PyInt (2 ^ 31); "_name" := RandExpr "RANDOM()" ]} |}.

(** A filter query with no clause at all. *)
Definition no_filter : _FilterQuery :=
  {| joins := []; filters := []; order_by := None; ascending := true;
     limit := PyNone; offset := PyNone |}.

End Views.

(** ** Reference definitions, in the words of the specification *)

(** A letter of a lower-case word matches itself and its upper-case form. *)
Definition same_letter (w c : ascii) : bool :=
  bool_decide (c = w)
  || (ascii_in_range "a" "z" w
      && bool_decide (c = Ascii.ascii_of_nat (Ascii.nat_of_ascii w - 32))).

(** [s] spells the lower-case word [word], in any mix of cases. *)
Fixpoint spells (word s : string) : bool :=
  match word, s with
  | EmptyString, EmptyString => true
  | String w word', String c s' => same_letter w c && spells word' s'
  | _, _ => false
  end.

(** The strings the specification maps to false. *)
Definition spells_false (s : string) : bool :=
  spells "0" s || spells "f" s || spells "false" s.

Section Reference.
Context `{Builtins}.

(** The value a merge of parameter maps gives a name when later entries
    overwrite earlier ones: that of the last expression binding it. *)
Fixpoint last_binding (k : string) (expressions : list Expression)
  : option PyValue :=
  match expressions with
  | [] => None
  | (_, param) :: rest =>
      match last_binding k rest with
      | Some value => Some value
      | None => param ≫= (.!! k)
      end
  end.

(** Join resolution as the specification words it: the join succeeds, with
    the other column's table as the new one, when exactly one of the two
    owning tables is in the set, and fails with a [ValueError] when neither
    or both are. *)
Definition join_resolves_as_specified : Prop :=
  ∀ (keyword : string) (first second : Column) (A B : MetaModel)
    (joined : Joined),
    table first = Some A → table second = Some B →
    (xorb (table_in A joined) (table_in B joined) = true →
     ∃ query, join_clause keyword first second joined
              = Ok (query, if table_in A joined then B else A))
    ∧ (xorb (table_in A joined) (table_in B joined) = false →
       raises (join_clause keyword first second joined) ValueError).

(** [f"{first} = {second}"] once both columns have their tables. *)
Definition on_condition (A B : MetaModel) (first second : Column) : string :=
  dq +:+ __table__ A +:+ dq +:+ "." +:+ dq +:+ name first +:+ dq
  +:+ " = "
  +:+ dq +:+ __table__ B +:+ dq +:+ "." +:+ dq +:+ name second +:+ dq.

(** [<keyword> <newTable> ON <first> = <second>] *)
Definition join_sql (keyword : string) (new A B : MetaModel)
    (first second : Column) : string :=
  keyword +:+ " " +:+ MetaModel___str__ new
  +:+ LF +:+ TAB +:+ "ON " +:+ on_condition A B first second.

(** The same filter query with another [limit] or [offset]. *)
Definition with_limit (self : _FilterQuery) (limit : PyValue) : _FilterQuery :=
  {| joins := joins self; filters := filters self; order_by := order_by self;
     ascending := ascending self; limit := limit; offset := offset self |}.

Definition with_offset (self : _FilterQuery) (offset : PyValue)
  : _FilterQuery :=
  {| joins := joins self; filters := filters self; order_by := order_by self;
     ascending := ascending self; limit := limit self; offset := offset |}.

(** A bound that passes the check made on truthy limits and offsets. *)
Definition non_negative_int (bound : PyValue) : bool :=
  match as_int bound with
  | Some z => 0 <=? z
  | None => false
  end.

(** The filter query [ORDER BY column], ascending or not. *)
Definition ordered (column : Column) (ascending : bool) : _FilterQuery :=
  {| joins := []; filters := []; order_by := Some column;
     ascending := ascending; limit := PyNone; offset := PyNone |}.

(** The SQL text of a rendering, without the state it left. *)
Definition text_of (rendered : result (string * Query)) : result string :=
  '(text, _) ← rendered; Ok text.

(** One cell of a VALUES tuple: the raw SQL of a random expression, or the
    placeholder of the parameter [<table>_<column>_<rowIndex>]. *)
Definition cell_sql (owner : MetaModel) (number : nat) (value : BaseModel)
    (column : Column) : string :=
  match Column___get__instance column value with
  | RandExpr expression => expression
  | _ => "%(" +:+ value_name owner column number +:+ ")s"
  end.

(** The parameter a cell binds, if it binds one. *)
Definition cell_binding (owner : MetaModel) (number : nat) (value : BaseModel)
    (column : Column) : option (string * PyValue) :=
  match Column___get__instance column value with
  | RandExpr _ => None
  | held => Some (value_name owner column number, held)
  end.

(** One VALUES tuple, and all of them. *)
Definition row_sql (owner : MetaModel) (number : nat) (value : BaseModel)
  : string :=
  LF +:+ TAB +:+ "("
  +:+ join ", " (cell_sql owner number value <$> columns owner) +:+ ")".

Definition values_sql (owner : MetaModel) (values : list BaseModel) : string :=
  LF +:+ "VALUES" +:+ join "," (imap (row_sql owner) values).

(** The parameters the cells bind, row by row, in column order. *)
Definition row_bindings (owner : MetaModel) (number : nat) (value : BaseModel)
  : list (string * PyValue) :=
  omap (cell_binding owner number value) (columns owner).

Definition values_bindings (owner : MetaModel) (values : list BaseModel)
  : list (string * PyValue) :=
  concat (imap (row_bindings owner) values).

(** [parameters[name] = value] for each binding, in order. *)
Definition bind_all (bindings : list (string * PyValue))
    (parameters : gmap string PyValue) : gmap string PyValue :=
  foldl (λ parameters binding, <[binding.1 := binding.2]> parameters)
        parameters bindings.

(** A model class whose column attributes are named after their columns, as
    in [views]. *)
Definition named_after_columns (cls : MetaModel) : Prop :=
  NoDup ((λ attr, attr.1) <$> namespace cls)
  ∧ Forall (λ attr, attr.1 = name attr.2) (namespace cls).

End Reference.

(** ** More reference definitions *)

Section MoreReference.
Context `{Builtins}.

(** The two classes of bounded and unbounded text. *)
Definition is_VarChar (cls : ColumnType) : bool :=
  match cls with VarChar | VarChar_ _ _ => true | _ => false end.

(** The classes that hold dates and timestamps. *)
Definition is_temporal (cls : ColumnType) : bool :=
  match cls with Date | TimeStampTZ => true | _ => false end.

(** The first column of a class with a given name: what the search loop of
    [UpdateQuery._render] stops at. *)
Definition column_named (cls : MetaModel) (key : string) : option Column :=
  snd <$> list_find (λ column, name column = key) (columns cls).

(** An item of an update that names a column of the class and holds a value
    the column validates. *)
Definition valid_item (cls : MetaModel) (item : string * PyValue) : Prop :=
  ∃ column, column_named cls item.1 = Some column
            ∧ validate column item.2 = Ok ().

(** [<column> = %(<table>_<column>)s], on its own line. *)
Definition assignment_sql (cls : MetaModel) (item : string * PyValue)
  : string :=
  LF +:+ TAB +:+ item.1 +:+ " = %(" +:+ __table__ cls +:+ "_" +:+ item.1
  +:+ ")s".

(** The parameter an item of an update binds. *)
Definition assignment_binding (cls : MetaModel) (item : string * PyValue)
  : string * PyValue :=
  (__table__ cls +:+ "_" +:+ item.1, item.2).

(** [str(column)] for a column read through the class [cls]. *)
Definition column_str (cls : MetaModel) (column : Column) : string :=
  dq +:+ __table__ cls +:+ dq +:+ "." +:+ dq +:+ name column +:+ dq.

(** The clauses an insertion adds when [upsert] is set. *)
Definition upsert_sql (cls : MetaModel) : string :=
  LF +:+ "ON CONFLICT"
  +:+ LF +:+ TAB +:+ "(" +:+ column_names (primary_keys cls) +:+ ")"
  +:+ LF +:+ "DO UPDATE " +:+ MetaModel___str__ cls
  +:+ LF +:+ "SET" +:+ LF +:+ TAB
  +:+ join (LF +:+ TAB)
        ((λ column, dq +:+ name column +:+ dq +:+ " = "
                    +:+ column_str cls column) <$> columns cls).

(** The whole statement of an insertion. *)
Definition insert_sql (cls : MetaModel) (values : list BaseModel)
    (upsert : bool) : string :=
  "INSERT INTO " +:+ MetaModel___str__ cls +:+ LF
  +:+ TAB +:+ "(" +:+ column_names (columns cls) +:+ ") "
  +:+ values_sql cls values
  +:+ (if upsert then upsert_sql cls else "")
  +:+ LF +:+ "ON CONFLICT (" +:+ column_names (primary_keys cls)
  +:+ ") DO NOTHING"
  +:+ LF +:+ "RETURNING" +:+ LF
  +:+ TAB +:+ "(" +:+ column_names (columns cls) +:+ ")".

(** The head of a selection, up to the line after [FROM]. *)
Definition select_sql (selected : list string) (table : option MetaModel)
  : string :=
  "SELECT" +:+ LF +:+ TAB +:+ join ("," +:+ LF +:+ TAB) selected +:+ LF
  +:+ "FROM " +:+ format_table table +:+ LF.

(** Text whose last character is not white space. *)
Definition ends_nonspace (s : string) : Prop :=
  ∃ (before : string) (c : ascii),
    s = before +:+ String c "" ∧ isspace c = false.

End MoreReference.

(** * Properties *)

(** ** Text *)

Lemma string_app_cons (c : ascii) (s t : string) :
  String c s +:+ t = String c (s +:+ t).
Proof. reflexivity. Qed.

Lemma string_app_assoc (s t u : string) : (s +:+ t) +:+ u = s +:+ t +:+ u.
Proof.
  induction s as [|c s IH]; [reflexivity|].
  by rewrite !string_app_cons, IH.
Qed.

Lemma string_app_nil_r (s : string) : s +:+ "" = s.
Proof.
  induction s as [|c s IH]; [reflexivity|].
  by rewrite string_app_cons, IH.
Qed.

Lemma string_length_app (s t : string) :
  String.length (s +:+ t) = (String.length s + String.length t)%nat.
Proof.
  induction s as [|c s IH]; [reflexivity|].
  rewrite string_app_cons. simpl. by rewrite IH.
Qed.

Lemma substring_app_l (s t : string) :
  String.substring 0 (String.length s) (s +:+ t) = s.
Proof.
  induction s as [|c s IH]; [by destruct t|].
  rewrite string_app_cons. simpl. by rewrite IH.
Qed.

(** Dropping a suffix of the length asked for. *)
Lemma drop_last_app (n : nat) (s t : string) :
  String.length t = n → drop_last n (s +:+ t) = s.
Proof.
  intros <-. unfold drop_last. rewrite string_length_app.
  replace (String.length s + String.length t - String.length t)%nat
    with (String.length s) by lia.
  apply substring_app_l.
Qed.

(** ** Conversion of values *)

Section ConversionFacts.
Context `{Builtins}.

Lemma construct_type _type value converted :
  construct _type value = Some converted → type_of converted = _type.
Proof.
  destruct _type; simpl; try discriminate.
  - by intros [= <-].
  - destruct (py_int value); simpl; [by intros [= <-] | discriminate].
  - destruct (py_float value); simpl; [by intros [= <-] | discriminate].
  - by intros [= <-].
  - destruct (py_Decimal value); simpl; [by intros [= <-] | discriminate].
  - destruct value; try discriminate.
    destruct (date_of_str s); simpl; [by intros [= <-] | discriminate].
  - destruct value; try discriminate.
    destruct (datetime_of_str s); simpl; [by intros [= <-] | discriminate].
Qed.

Lemma first_constructed_type types value converted :
  first_constructed types value = Some converted →
  type_of converted ∈ types.
Proof.
  induction types as [|_type types IH]; simpl; [discriminate|].
  destruct (construct _type value) as [c|] eqn:Hc.
  - intros [= <-]. apply construct_type in Hc. rewrite Hc. left.
  - intros Hrest. right. by apply IH.
Qed.

(** Whatever [Column.convert] returns has one of the accepted types. *)
Lemma Column_convert_type cls value converted :
  Column_convert cls value = Ok converted →
  type_of converted ∈ T_RandExpr :: _TYPES cls.
Proof.
  unfold Column_convert. case_bool_decide as Hin.
  - by intros [= <-].
  - destruct (first_constructed _ _) as [c|] eqn:Hc; [|discriminate].
    intros [= <-]. right.
    apply first_constructed_type in Hc.
    by rewrite (iter_set_perm (_TYPES cls)) in Hc.
Qed.

(** A value of an accepted type is returned as it is. *)
Lemma Column_convert_accepted cls value :
  type_of value ∈ T_RandExpr :: _TYPES cls →
  Column_convert cls value = Ok value.
Proof. intros Hin. unfold Column_convert. by rewrite bool_decide_eq_true_2. Qed.

Lemma Column_convert_fixed cls value converted :
  Column_convert cls value = Ok converted →
  Column_convert cls converted = Ok converted.
Proof. intros Hc. by apply Column_convert_accepted, Column_convert_type with value. Qed.

End ConversionFacts.

Section ConvertIdempotent.
Context `{Builtins}.

(** C6. For every concrete column type, converting a value that was
    returned by [convert] succeeds and returns that same value:
    [convert(convert(x))] is [convert(x)]. *)
Theorem convert_idempotent (cls : ColumnType) (value converted : PyValue) :
  convert cls value = Ok converted →
  convert cls converted = Ok converted.
Proof.
  destruct cls; simpl; try apply Column_convert_fixed.
  - (* Boolean *)
    unfold Boolean_convert. intros Hc.
    assert (Hty : type_of converted ∈ T_RandExpr :: _TYPES Boolean).
    { destruct value; try (apply Column_convert_type in Hc; exact Hc).
      injection Hc as <-. simpl. set_solver. }
    destruct converted; try (apply Column_convert_accepted; exact Hty).
    simpl in Hty. rewrite !elem_of_cons, elem_of_nil in Hty. naive_solver.
  - (* Date *)
    unfold Date_convert. intros Hc.
    destruct (Column_convert Date value) as [c|e] eqn:Hbase.
    + injection Hc as <-. by rewrite (Column_convert_fixed _ _ _ Hbase).
    + destruct value; try discriminate.
      destruct (date_fromisoformat s); [|discriminate].
      injection Hc as <-.
      rewrite Column_convert_accepted; [done | simpl; set_solver].
  - (* TimeStampTZ *)
    unfold TimeStampTZ_convert. intros Hc.
    destruct (Column_convert TimeStampTZ value) as [c|e] eqn:Hbase.
    + injection Hc as <-. by rewrite (Column_convert_fixed _ _ _ Hbase).
    + destruct value; try discriminate.
      destruct (first_converted _ _); [|discriminate].
      injection Hc as <-.
      rewrite Column_convert_accepted; [done | simpl; set_solver].
Qed.

End ConvertIdempotent.

Section ConvertIdempotentWitness.
#[local] Existing Instance whole_carriers.
#[local] Existing Instance whole_builtins.

Lemma convert_idempotent_witness :
  convert Integer (PyBool true) = Ok (PyInt 1)
  ∧ convert Integer (PyInt 1) = Ok (PyInt 1).
Proof.
  split; [reflexivity|].
  apply (convert_idempotent Integer (PyBool true)).
  reflexivity.
Defined.

End ConvertIdempotentWitness.

(** ** Boolean conversion *)

Ltac by_cases_on_char c :=
  destruct c as [[] [] [] [] [] [] [] []]; vm_compute; reflexivity.

(** [lower] sends to a lower-case letter exactly that letter and its
    upper-case form. *)
Lemma lower_char_same_letter (w c : ascii) :
  w ∈ ["0"; "f"; "a"; "l"; "s"; "e"]%char →
  bool_decide (lower_char c = w) = same_letter w c.
Proof.
  intros Hw.
  repeat (apply elem_of_cons in Hw as [->|Hw]; [by_cases_on_char c|]).
  by apply elem_of_nil in Hw.
Qed.

Lemma lower_char_not_F (c : ascii) : lower_char c ≠ "F"%char.
Proof.
  apply (bool_decide_eq_false (lower_char c = "F"%char)).
  by_cases_on_char c.
Qed.

Lemma lower_spells (word s : string) :
  Forall (λ w, w ∈ ["0"; "f"; "a"; "l"; "s"; "e"]%char)
         (String.list_ascii_of_string word) →
  bool_decide (lower s = word) = spells word s.
Proof.
  revert s. induction word as [|w word IH]; intros s Hword.
  - by destruct s.
  - destruct s as [|c s]; [done|].
    inversion Hword as [|? ? Hw Hword']; subst. simpl.
    rewrite <- (IH s Hword'), <- (lower_char_same_letter w c Hw).
    rewrite <- bool_decide_and. apply bool_decide_ext. split.
    + by intros [= -> ->].
    + by intros [-> ->].
Qed.

Section BooleanFacts.
Context `{Builtins}.

Lemma Boolean_convert_str (s : string) :
  convert Boolean (PyStr s) = Ok (PyBool (negb (spells_false s))).
Proof.
  simpl. do 3 f_equal. unfold spells_false.
  rewrite <- !lower_spells by (repeat constructor; set_solver).
  rewrite <- !bool_decide_or. apply bool_decide_ext.
  rewrite !elem_of_cons, elem_of_nil.
  split; [|tauto].
  intros [?|[?|[?|[Hf|[]]]]]; auto.
  destruct s as [|c s]; [done|]. injection Hf as Hc _.
  by destruct (lower_char_not_F c).
Qed.

(** C7. [Boolean.convert] sends a string that spells "0", "f" or "false",
    in any mix of cases, to false and every other string to true; it sends
    "FALSE" and "0" to false and "yes" to true; and it sends the integer 1 to
    a value that equals [True]. *)
Theorem Boolean_convert_values :
  (∀ s, convert Boolean (PyStr s) = Ok (PyBool (negb (spells_false s))))
  ∧ convert Boolean (PyStr "FALSE") = Ok (PyBool false)
  ∧ convert Boolean (PyStr "0") = Ok (PyBool false)
  ∧ convert Boolean (PyStr "yes") = Ok (PyBool true)
  ∧ ∃ converted, convert Boolean (PyInt 1) = Ok converted
                 ∧ int_eq converted (PyBool true) = Some true.
Proof.
  split; [apply Boolean_convert_str|].
  repeat split; try by rewrite Boolean_convert_str.
  exists (PyInt 1). split; [|reflexivity].
  simpl. by apply Column_convert_accepted; simpl; set_solver.
Qed.

End BooleanFacts.

(** ** Validation of numeric values *)

Section NumericFacts.
Context `{Builtins}.

Lemma first_constructed_None (types : list PyType) :
  types ⊆ [T_int; T_float; T_Decimal] →
  first_constructed types PyNone = None.
Proof.
  induction types as [|_type types IH]; intros Hsub; [done|].
  simpl. rewrite IH by set_solver.
  assert (H_type : _type ∈ [T_int; T_float; T_Decimal]) by set_solver.
  rewrite !elem_of_cons, elem_of_nil in H_type.
  by destruct H_type as [->|[->|[->|[]]]].
Qed.

(** No class deriving from [_Numeric] converts [None]. *)
Lemma Numeric_convert_None (cls : ColumnType) :
  is_Numeric cls = true → convert cls PyNone = Err (Raise TypeError "Could not convert value").
Proof.
  intros Hcls.
  assert (Htypes : _TYPES cls ⊆ [T_int; T_float; T_Decimal])
    by (destruct cls; try discriminate; simpl; set_solver).
  assert (convert cls PyNone = Column_convert cls PyNone) as ->
    by (by destruct cls).
  unfold Column_convert. rewrite bool_decide_eq_false_2.
  - rewrite first_constructed_None; [done|].
    by rewrite (iter_set_perm (_TYPES cls)).
  - simpl. rewrite elem_of_cons. intros [|Hin]; [done|].
    apply Htypes in Hin. rewrite !elem_of_cons, elem_of_nil in Hin.
    naive_solver.
Qed.

(** Where conversion succeeds, the checks of [Column.validate] pass. *)
Lemma Numeric_Column_validate (column : Column) (value converted : PyValue) :
  is_Numeric (ctype column) = true →
  convert (ctype column) value = Ok converted →
  Column_validate column value = Ok ().
Proof.
  intros Hcls Hc. unfold Column_validate. rewrite Hc.
  destruct value; try by rewrite andb_false_r.
  by rewrite Numeric_convert_None in Hc.
Qed.

Lemma _Numeric_validate_converted (column : Column)
    (value converted : PyValue) :
  is_Numeric (ctype column) = true →
  convert (ctype column) value = Ok converted →
  validate column value =
    (in_range ← chained_le (_MIN (ctype column)) converted
                           (_MAX (ctype column));
     if negb in_range then
       Err (Raise ValueError "Invalid value for type - must be in range")
     else Ok ()).
Proof.
  intros Hcls Hc. unfold validate, _Numeric_validate. rewrite Hcls.
  by rewrite (Numeric_Column_validate _ _ _ Hcls Hc), Hc.
Qed.

(** C9. An [Integer] column rejects [2**31] with a [ValueError] and accepts
    [2**31 - 1].  For every numeric column type with bounds and every value
    that converts: validation succeeds exactly when both comparisons
    [_MIN <= converted] and [converted <= _MAX] hold; when the converted
    value is an [int], that is exactly when it lies in [_MIN, _MAX], and
    outside that range validation raises [ValueError]. *)
Theorem Numeric_validate_range :
  (∀ column : Column, ctype column = Integer →
     raises (validate column (PyInt (2 ^ 31))) ValueError
     ∧ validate column (PyInt (2 ^ 31 - 1)) = Ok ())
  ∧ (∀ (column : Column) (value converted : PyValue) (lo hi : Z),
       is_Numeric (ctype column) = true →
       _MIN (ctype column) = Some lo →
       _MAX (ctype column) = Some hi →
       convert (ctype column) value = Ok converted →
       (validate column value = Ok () ↔
          int_le_value lo converted = Ok true
          ∧ value_le_int converted hi = Ok true)
       ∧ (∀ z : Z, converted = PyInt z →
            (lo ≤ z ≤ hi → validate column value = Ok ())
            ∧ (¬ (lo ≤ z ≤ hi) → raises (validate column value) ValueError))).
Proof.
  split.
  - intros column Hcls.
    assert (Hnum : is_Numeric (ctype column) = true) by by rewrite Hcls.
    assert (Hconv : ∀ z, convert (ctype column) (PyInt z) = Ok (PyInt z)).
    { intros z. rewrite Hcls. simpl.
      apply Column_convert_accepted. simpl. set_solver. }
    rewrite !(_Numeric_validate_converted _ _ _ Hnum (Hconv _)), Hcls.
    split; [by eexists|done].
  - intros column value converted lo hi Hnum Hlo Hhi Hc.
    rewrite (_Numeric_validate_converted _ _ _ Hnum Hc), Hlo, Hhi.
    unfold chained_le. split.
    + destruct (int_le_value lo converted) as [[]|]; simpl;
        [destruct (value_le_int converted hi) as [[]|]; simpl|..];
        naive_solver.
    + intros z ->. simpl.
      destruct (Z.leb_spec lo z); simpl;
        [destruct (Z.leb_spec z hi); simpl|];
        (split; [intros ?|intros ?; unfold raises]); try done; try lia;
        by eexists.
Qed.

End NumericFacts.

Section NumericWitness.
#[local] Existing Instance whole_carriers.
#[local] Existing Instance whole_builtins.

Lemma Numeric_validate_range_witness :
  validate Game_developer_id (PyInt 7) = Ok ().
Proof.
  apply (proj2 (proj2 Numeric_validate_range
                  Game_developer_id (PyInt 7) (PyInt 7)
                  (0 - 2 ^ 31) (2 ^ 31 - 1)
                  eq_refl eq_refl eq_refl eq_refl) 7 eq_refl).
  vm_compute. split; discriminate.
Defined.

End NumericWitness.

(** ** Column names *)

Section ColumnNameFacts.
Context `{Builtins}.

(** C5, as the code has it: [Column.__init__] looks at the first character
    of the name only.  A name that starts with a letter is accepted whatever
    follows; the name "a-b" is accepted. *)
Theorem Column_init_first_char_only :
  (∀ (rest : string) cls primary_key unique not_null default foreign_key,
     is_ok (Column___init__ cls (String "a" rest) primary_key unique not_null
              default foreign_key) = true)
  ∧ Column___init__ Integer "a-b" false false false (Value PyNone) None
    = Ok {| ctype := Integer; name := "a-b"; primary_key := false;
            unique := false; not_null := false; table := None;
            foreign_key := None; _default := Value PyNone |}.
Proof. split; [done|reflexivity]. Qed.

End ColumnNameFacts.

(** ** Logical combinators *)

Section LogicalFacts.
Context `{Builtins}.

Lemma lookup_update (param : option (gmap string PyValue))
    (parameters : gmap string PyValue) (k : string) :
  (default ∅ param ∪ parameters) !! k
  = match param ≫= (.!! k) with
    | Some value => Some value
    | None => parameters !! k
    end.
Proof.
  rewrite lookup_union. destruct param as [param|]; simpl.
  - destruct (param !! k), (parameters !! k); done.
  - rewrite lookup_empty. by destruct (parameters !! k).
Qed.

(** The loop of [logical_expr], from any values of its two local
    variables. *)
Lemma logical_expr_loop (expressions : list Expression)
    (operands : list string) (parameters : gmap string PyValue) :
  ∃ merged,
    foldl (λ '(operands, parameters) '(expression, param),
             (operands ++ [expression], default ∅ param ∪ parameters))
          (operands, parameters) expressions
    = (operands ++ (fst <$> expressions), merged)
    ∧ ∀ k, merged !! k = match last_binding k expressions with
                         | Some value => Some value
                         | None => parameters !! k
                         end.
Proof.
  revert operands parameters.
  induction expressions as [|[expression param] rest IH];
    intros operands parameters.
  - exists parameters. by rewrite app_nil_r.
  - destruct (IH (operands ++ [expression]) (default ∅ param ∪ parameters))
      as (merged & Hfold & Hlookup).
    exists merged. simpl. rewrite Hfold, <- app_assoc. split; [done|].
    intros k. rewrite Hlookup, lookup_update.
    by destruct (last_binding k rest).
Qed.

(** C8. The function [_logical_expr_factory] returns, and so [and_] and
    [or_], gives one expression: its fragment is the input fragments joined
    by the operator inside one pair of parentheses, and its parameter map
    gives every name the value of the last input map that binds it.  On
    [(expr1, {p1: 1})] and [(expr2, {p2: 2})], [and_] gives the fragment
    "(expr1 AND expr2)" and a map that binds both parameters. *)
Theorem logical_expr_combines :
  (∀ (operator : string) (expressions : list Expression),
     ∃ parameters,
       _logical_expr_factory operator expressions
       = ("(" +:+ join (" " +:+ operator +:+ " ") (fst <$> expressions)
          +:+ ")", Some parameters)
       ∧ ∀ k, parameters !! k = last_binding k expressions)
  ∧ and_ = _logical_expr_factory "AND"
  ∧ or_ = _logical_expr_factory "OR"
  ∧ ∃ parameters,
      and_ [("expr1", Some {["p1" := PyInt 1]});
            ("expr2", Some {["p2" := PyInt 2]})]
      = ("(expr1 AND expr2)", Some parameters)
      ∧ parameters !! "p1" = Some (PyInt 1)
      ∧ parameters !! "p2" = Some (PyInt 2).
Proof.
  assert (Hgeneral : ∀ operator expressions, ∃ parameters,
    _logical_expr_factory operator expressions
    = ("(" +:+ join (" " +:+ operator +:+ " ") (fst <$> expressions)
       +:+ ")", Some parameters)
    ∧ ∀ k, parameters !! k = last_binding k expressions).
  { intros operator expressions. unfold _logical_expr_factory.
    destruct (logical_expr_loop expressions [] ∅)
      as (merged & -> & Hlookup).
    exists merged. split; [done|].
    intros k. rewrite Hlookup, lookup_empty.
    by destruct (last_binding k expressions). }
  split; [exact Hgeneral|]. split; [done|]. split; [done|].
  destruct (Hgeneral "AND" [("expr1", Some {["p1" := PyInt 1]});
                            ("expr2", Some {["p2" := PyInt 2]})])
    as (parameters & Hexpr & Hlookup).
  exists parameters. split; [exact Hexpr|].
  rewrite !Hlookup. split; reflexivity.
Qed.

End LogicalFacts.

(** ** Join resolution *)

Section JoinFacts.
Context `{Builtins}.

(** C1, as the code has it.  With both columns read through their model
    classes [A] and [B]: when [A] is among the joined tables the join
    succeeds and the new table is [B], whether or not [B] is among them too;
    otherwise, when [B] is among them, the join succeeds and the new table
    is [A]; when neither is, the join raises [ValueError].  The SQL fragment
    is [<keyword> <newTable> ON <first> = <second>]. *)
Theorem join_clause_resolution (keyword : string) (first second : Column)
    (A B : MetaModel) (joined : Joined) :
  table first = Some A →
  table second = Some B →
  join_clause keyword first second joined
  = if table_in A joined then
      Ok (join_sql keyword B A B first second, B)
    else if table_in B joined then
      Ok (join_sql keyword A A B first second, A)
    else Err (Raise ValueError "Can't join - unknown tables provided").
Proof.
  intros HA HB.
  unfold join_clause, Column___eq__, operator_factory, Column___str__,
    Column_table.
  rewrite HA, HB. unfold join_sql, on_condition. simpl.
  rewrite !string_app_assoc.
  destruct (table_in A joined); [reflexivity|].
  destruct (table_in B joined); reflexivity.
Qed.

End JoinFacts.

Section JoinExamples.
#[local] Existing Instance whole_carriers.
#[local] Existing Instance whole_builtins.

Lemma join_clause_resolution_witness :
  join_ Game_developer_id GameDeveloper_id [GameDeveloper]
  = Ok (join_sql "JOIN" Game Game GameDeveloper
          Game_developer_id GameDeveloper_id, Game).
Proof.
  apply (join_clause_resolution "JOIN" Game_developer_id GameDeveloper_id
           Game GameDeveloper [GameDeveloper]); reflexivity.
Defined.

(** With both [Game] and [GameDeveloper] among the joined tables the join
    of [Game.developer_id] and [GameDeveloper.id] goes through, so join
    resolution is not as the specification words it. *)
Lemma join_both_joined_succeeds : ¬ join_resolves_as_specified.
Proof.
  intros Hspec.
  destruct (Hspec "JOIN" Game_developer_id GameDeveloper_id
              Game GameDeveloper [GameDeveloper; Game] eq_refl eq_refl)
    as [_ Hraises].
  destruct (Hraises eq_refl) as [msg Hmsg].
  vm_compute in Hmsg. discriminate Hmsg.
Qed.

End JoinExamples.

(** ** Limit and offset *)

Section BoundFacts.
Context `{Builtins}.

Lemma render_bound_falsy (clause message : string) (bound : PyValue)
    (query : string) (self : Query) :
  py_bool bound = false →
  render_bound clause message bound query self = Ok (query, self).
Proof. intros Hfalsy. unfold render_bound. by rewrite Hfalsy. Qed.

Lemma render_bound_invalid (clause message : string) (bound : PyValue)
    (query : string) (self : Query) :
  py_bool bound = true → non_negative_int bound = false →
  render_bound clause message bound query self
  = Err (Raise ValueError message).
Proof.
  intros Htruthy Hinvalid. unfold render_bound. rewrite Htruthy.
  unfold non_negative_int in Hinvalid.
  destruct bound as [|b|z| | | | | |]; simpl in *; try done.
  - by destruct b.
  - apply Z.leb_gt in Hinvalid. by rewrite (proj2 (Z.ltb_lt z 0) Hinvalid).
Qed.

Ltac render_steps :=
  unfold _FilterQuery__render, mbind, Render_bind; simpl;
  repeat match goal with
         | |- context [match ?step with Ok _ => _ | Err _ => _ end] =>
             lazymatch step with
             | render_bound _ _ _ _ _ => fail
             | _ => destruct step as [[? ?]|?] eqn:?; try done
             end
         end.

(** C10. A limit of 0 renders exactly as an unset limit does, so with no
    [LIMIT] clause, and so does an offset of 0; with nothing else to render
    the text is empty.  The same holds for every falsy limit or offset.  A
    truthy limit or offset that is not a non-negative integer raises
    [ValueError] where the query renders with that limit or offset unset. *)
Theorem zero_bound_as_unset (self : _FilterQuery) (query : Query) :
  _FilterQuery__render (with_limit self (PyInt 0)) query
  = _FilterQuery__render (with_limit self PyNone) query
  ∧ _FilterQuery__render (with_offset self (PyInt 0)) query
    = _FilterQuery__render (with_offset self PyNone) query
  ∧ _FilterQuery__render
      {| joins := []; filters := []; order_by := None;
         ascending := ascending self; limit := PyInt 0; offset := PyInt 0 |}
      query = Ok ("", query)
  ∧ (∀ bound : PyValue, py_bool bound = false →
       _FilterQuery__render (with_limit self bound) query
       = _FilterQuery__render (with_limit self PyNone) query
       ∧ _FilterQuery__render (with_offset self bound) query
         = _FilterQuery__render (with_offset self PyNone) query)
  ∧ (∀ bound : PyValue,
       py_bool bound = true → non_negative_int bound = false →
       (is_ok (_FilterQuery__render (with_limit self PyNone) query) = true →
        raises (_FilterQuery__render (with_limit self bound) query) ValueError)
       ∧ (is_ok (_FilterQuery__render (with_offset self PyNone) query) = true →
          raises (_FilterQuery__render (with_offset self bound) query)
                 ValueError)).
Proof.
  assert (Hfalsy : ∀ bound : PyValue, py_bool bound = false →
    _FilterQuery__render (with_limit self bound) query
    = _FilterQuery__render (with_limit self PyNone) query
    ∧ _FilterQuery__render (with_offset self bound) query
      = _FilterQuery__render (with_offset self PyNone) query).
  { intros bound Hbound. split; render_steps.
    - by rewrite !(render_bound_falsy _ _ bound).
    - destruct (render_bound "LIMIT" _ _ _ _) as [[? ?]|?]; [|done].
      by rewrite !(render_bound_falsy _ _ bound). }
  split; [by apply Hfalsy|]. split; [by apply Hfalsy|].
  split; [done|]. split; [exact Hfalsy|].
  intros bound Htruthy Hinvalid. split; render_steps.
  - intros _. rewrite render_bound_invalid by done. by eexists.
  - destruct (render_bound "LIMIT" _ _ _ _) as [[? ?]|?]; [|done].
    intros _. rewrite render_bound_invalid by done. by eexists.
Qed.

End BoundFacts.

Section BoundWitness.
#[local] Existing Instance whole_carriers.
#[local] Existing Instance whole_builtins.

Lemma zero_bound_as_unset_witness :
  raises (_FilterQuery__render (with_limit no_filter (PyInt (-1)))
            (mkQuery ∅ [Game])) ValueError.
Proof.
  apply (proj1 (proj2 (proj2 (proj2 (proj2
           (zero_bound_as_unset no_filter (mkQuery ∅ [Game])))))
           (PyInt (-1)) eq_refl eq_refl)).
  reflexivity.
Defined.

End BoundWitness.

(** ** Queries without a table *)

Section NoTableFacts.
Context `{Builtins}.

(** C2, as the code has it.  With no table: [DeleteQuery] renders the empty
    text and changes nothing, and so does [UpdateQuery] when it has no value
    to set; [InsertQuery] raises [ValueError] at the unpacking of
    [self.tables]; [SelectQuery] with no explicit column raises
    [AttributeError], and so does [UpdateQuery] with a value to set; and
    [SelectQuery] with an explicit column renders a [SELECT ... FROM None]
    text. *)
Theorem render_without_table :
  (∀ parameters filter,
     render (Delete {| Delete_query := mkQuery parameters [];
                       Delete_filter := filter |})
     = Ok ("", mkQuery parameters []))
  ∧ (∀ parameters filter,
       render (Update {| Update_query := mkQuery parameters [];
                         Update_filter := filter; Update_values := [] |})
       = Ok ("", mkQuery parameters []))
  ∧ (∀ parameters values upsert,
       render (Insert {| Insert_query := mkQuery parameters [];
                         Insert_values := values; upsert := upsert |})
       = Err (Raise ValueError "not enough values to unpack"))
  ∧ (∀ parameters filter,
       render (Select {| Select_query := mkQuery parameters [];
                         Select_filter := filter; Select_columns := [] |})
       = Err (Raise AttributeError "columns"))
  ∧ (∀ parameters filter item items,
       render (Update {| Update_query := mkQuery parameters [];
                         Update_filter := filter;
                         Update_values := item :: items |})
       = Err (Raise AttributeError "columns"))
  ∧ text_of (render (Select {| Select_query := mkQuery ∅ [];
                               Select_filter := no_filter;
                               Select_columns := [Game_id] |}))
    = Ok ("SELECT" +:+ LF +:+ TAB
          +:+ dq +:+ "game" +:+ dq +:+ "." +:+ dq +:+ "id" +:+ dq
          +:+ LF +:+ "FROM None").
Proof.
  split; [done|]. split; [done|]. split.
  { intros parameters values upsert. simpl. by destruct (_iter _ values). }
  split; [done|]. split; [|reflexivity].
  by intros parameters filter [updated_column value] items.
Qed.

End NoTableFacts.

(** ** Ordering *)

Section OrderFacts.
Context `{Builtins}.

(** C4, as the code has it.  Ordering by a column whose table is not among
    the query's tables raises [ValueError]; ascending order renders
    [ORDER BY <column> ASC]; descending order renders the bare word [DESC],
    with no [ORDER BY] and no column. *)
Theorem order_by_descending_renders_DESC_only :
  let delete_ordered column ascending :=
    text_of (render (Delete {| Delete_query := mkQuery ∅ [Game];
                               Delete_filter := ordered column ascending |})) in
  let delete_from :=
    "DELETE FROM " +:+ dq +:+ "gamers" +:+ dq +:+ "."
    +:+ dq +:+ "game" +:+ dq +:+ LF in
  let descending := delete_from +:+ "DESC" +:+ LF +:+ "RETURNING *" in
  delete_ordered GameDeveloper_id true
  = Err (Raise ValueError "Can't order by unknown column")
  ∧ delete_ordered Game_id true
    = Ok (delete_from +:+ "ORDER BY " +:+ dq +:+ "game" +:+ dq +:+ "."
          +:+ dq +:+ "id" +:+ dq +:+ " ASC" +:+ LF +:+ "RETURNING *")
  ∧ delete_ordered Game_id false = Ok descending
  ∧ contains "ORDER BY" descending = false.
Proof. repeat split; reflexivity. Qed.

End OrderFacts.

(** ** The VALUES tuples of an insertion *)

(** Text that ends every item with the separator, against [join]. *)
Lemma join_trailing (sep : string) (parts : list string) :
  parts ≠ [] →
  foldr (λ part text, part +:+ sep +:+ text) "" parts
  = join sep parts +:+ sep.
Proof.
  induction parts as [|part parts IH]; [done|]. intros _.
  destruct parts as [|part' parts].
  - simpl. by rewrite string_app_nil_r.
  - change (join sep (part :: part' :: parts))
      with (part +:+ sep +:+ join sep (part' :: parts)).
    rewrite !string_app_assoc, <- IH by done. reflexivity.
Qed.

Section ValuesFacts.
Context `{Builtins}.

Lemma bind_all_app (first second : list (string * PyValue))
    (parameters : gmap string PyValue) :
  bind_all (first ++ second) parameters
  = bind_all second (bind_all first parameters).
Proof. apply foldl_app. Qed.

(** A column read through its class is that class's. *)
Lemma columns_table (cls : MetaModel) (column : Column) :
  column ∈ columns cls → table column = Some cls.
Proof.
  unfold columns. intros ([attr c] & -> & _)%list_elem_of_fmap. done.
Qed.

Lemma list_find_attr (entries : list (string * Column)) (attr : string)
    (column : Column) :
  NoDup ((λ entry, entry.1) <$> entries) →
  (attr, column) ∈ entries →
  ∃ i, list_find (λ entry, entry.1 = attr) entries = Some (i, (attr, column)).
Proof.
  induction entries as [|[attr' column'] entries IH]; intros Hnodup Hin.
  - by apply elem_of_nil in Hin.
  - rewrite fmap_cons in Hnodup. apply NoDup_cons in Hnodup as [Hfresh Hnodup].
    apply elem_of_cons in Hin as [[= <- <-]|Hin].
    + exists 0%nat. simpl. by rewrite decide_True.
    + destruct (IH Hnodup Hin) as [i Hfind]. exists (S i).
      simpl. rewrite decide_False.
      * by rewrite Hfind.
      * simpl. intros ->. apply Hfresh.
        apply list_elem_of_fmap. by exists (attr, column).
Qed.

(** In a class whose attributes are named after their columns, the
    attribute with a column's name holds that column. *)
Lemma class_attr_column (cls : MetaModel) (column : Column) :
  named_after_columns cls →
  column ∈ columns cls →
  class_attr cls (name column) = Some column.
Proof.
  intros [Hnodup Hnamed] ([attr c] & -> & Hin)%list_elem_of_fmap.
  rewrite Forall_forall in Hnamed. pose proof (Hnamed _ Hin) as Hattr.
  simpl in *. subst attr.
  destruct (list_find_attr _ _ _ Hnodup Hin) as [i Hfind].
  unfold class_attr. by rewrite Hfind.
Qed.

Lemma getattr_column (value : BaseModel) (column : Column) :
  named_after_columns (model value) →
  column ∈ columns (model value) →
  getattr value (name column) = Ok (Column___get__instance column value).
Proof.
  intros Hnamed Hin. unfold getattr.
  by rewrite (class_attr_column _ _ Hnamed Hin).
Qed.

(** One pass of the loop over the columns. *)
Lemma render_value_cell (number : nat) (value : BaseModel) (query : string)
    (column : Column) (self : Query) :
  named_after_columns (model value) →
  column ∈ columns (model value) →
  render_value number value query column self
  = Ok (query +:+ cell_sql (model value) number value column +:+ ", ",
        {| parameters :=
             bind_all (option_list (cell_binding (model value) number value
                                      column))
                      (parameters self);
           tables := tables self |}).
Proof.
  intros Hnamed Hin. unfold render_value, mbind, Render_bind.
  assert (existsb (λ value_column,
            bool_decide (name value_column = name column))
            (columns (model value)) = true) as ->.
  { apply existsb_exists. exists column. split.
    - by apply list_elem_of_In.
    - by apply bool_decide_eq_true_2. }
  simpl. rewrite (getattr_column _ _ Hnamed Hin). simpl.
  unfold cell_sql, cell_binding, Column_table.
  rewrite (columns_table _ _ Hin).
  destruct (Column___get__instance column value), self; simpl;
    rewrite ?string_app_assoc; reflexivity.
Qed.

(** The whole loop over the columns. *)
Lemma render_value_cells (number : nat) (value : BaseModel)
    (cols : list Column) (query : string) (self : Query) :
  named_after_columns (model value) →
  cols ⊆ columns (model value) →
  for_ cols (render_value number value) query self
  = Ok (query +:+ foldr (λ cell text, cell +:+ ", " +:+ text) ""
                    (cell_sql (model value) number value <$> cols),
        {| parameters :=
             bind_all (omap (cell_binding (model value) number value) cols)
                      (parameters self);
           tables := tables self |}).
Proof.
  intros Hnamed. revert query self.
  induction cols as [|column cols IH]; intros query self Hsub.
  - simpl. rewrite string_app_nil_r. by destruct self.
  - simpl. unfold mbind, Render_bind.
    rewrite render_value_cell by set_solver.
    rewrite IH by set_solver. simpl.
    rewrite !string_app_assoc. do 2 f_equal.
    destruct (cell_binding _ _ _ column); reflexivity.
Qed.

(** One pass of the loop over the values. *)
Lemma render_row_sql (inserted : MetaModel) (number : nat)
    (value : BaseModel) (query : string) (self : Query) :
  named_after_columns inserted →
  namespace inserted ≠ [] →
  model value = inserted →
  render_row inserted (columns inserted) query (number, value) self
  = Ok (query +:+ row_sql inserted number value +:+ ",",
        {| parameters :=
             bind_all (row_bindings inserted number value) (parameters self);
           tables := tables self |}).
Proof.
  intros Hnamed Hcolumns <-. unfold render_row, isinstance, MetaModel_is.
  rewrite bool_decide_eq_true_2 by done. simpl.
  unfold mbind, Render_bind.
  rewrite render_value_cells by done. simpl.
  rewrite join_trailing
    by (unfold columns; by destruct (namespace (model value))).
  unfold row_sql.
  rewrite <- !string_app_assoc, drop_last_app by done.
  by rewrite !string_app_assoc.
Qed.

#[local] Arguments render_row : simpl never.

(** The whole loop over the values, numbered through [index]. *)
Lemma render_rows_sql (inserted : MetaModel) (values : list BaseModel)
    (index : nat → nat) (query : string) (self : Query) :
  named_after_columns inserted →
  namespace inserted ≠ [] →
  Forall (λ value, model value = inserted) values →
  for_ (imap (λ i value, (index i, value)) values)
       (render_row inserted (columns inserted)) query self
  = Ok (query +:+ foldr (λ row text, row +:+ "," +:+ text) ""
                    (imap (λ i, row_sql inserted (index i)) values),
        {| parameters :=
             bind_all (concat (imap (λ i, row_bindings inserted (index i))
                                    values))
                      (parameters self);
           tables := tables self |}).
Proof.
  intros Hnamed Hcolumns. revert index query self.
  induction values as [|value values IH]; intros index query self Hvalues.
  - simpl. rewrite string_app_nil_r. by destruct self.
  - apply Forall_cons in Hvalues as [Hvalue Hvalues].
    simpl. unfold mbind, Render_bind.
    rewrite render_row_sql by done.
    rewrite (IH (index ∘ S)) by done. simpl.
    by rewrite bind_all_app, !string_app_assoc.
Qed.

(** [_iter] leaves a list of instances of one class as it is. *)
Lemma _iter_same_model (inserted : MetaModel) (values : list BaseModel) :
  Forall (λ value, model value = inserted) values →
  _iter (λ value, __name__ (model value)) values = Same values.
Proof.
  intros Hvalues. unfold _iter.
  assert (Hfrom : ∀ seen, seen = Some (__name__ inserted) ∨ seen = None →
            _iter_from (λ value, __name__ (model value)) seen values = true).
  { induction Hvalues as [|value values Hvalue _ IH]; [done|].
    intros seen [-> | ->]; simpl.
    - rewrite Hvalue, bool_decide_eq_false_2 by (by intros []).
      apply IH. by left.
    - rewrite Hvalue. apply IH. by left. }
  rewrite Hfrom; [done | by right].
Qed.

Lemma set_clauses_columns (cls : MetaModel) (cols : list Column) :
  cols ⊆ columns cls → is_ok (set_clauses cols) = true.
Proof.
  induction cols as [|column cols IH]; intros Hsub; [done|].
  simpl. unfold Column___str__, Column_table.
  rewrite (columns_table cls column) by set_solver. simpl.
  destruct (set_clauses cols); [done|]. by apply IH; set_solver.
Qed.

(** C3, as the code has it.  For an insertion into one table whose column
    attributes are named after their columns, of instances of that table's
    class: the VALUES text is one tuple per instance, in order, each made of
    one cell per column, and a cell is the raw SQL of the random expression
    held, or else the placeholder of the parameter
    [<table>_<column>_<rowIndex>]; the parameters are those of the query with
    each value that is not a random expression bound under that name, in row
    then column order, and no other binding.  No value is validated: this
    holds whatever the values are, and the whole [InsertQuery] renders, with
    these parameters. *)
Theorem values_rendered_without_validation (inserted : MetaModel)
    (values : list BaseModel) (self : Query) (upsert : bool) :
  tables self = [inserted] →
  named_after_columns inserted →
  namespace inserted ≠ [] →
  values ≠ [] →
  Forall (λ value, model value = inserted) values →
  let bound :=
    {| parameters :=
         bind_all (values_bindings inserted values) (parameters self);
       tables := tables self |} in
  _ValuesQuery__render (Same values) self
  = Ok (values_sql inserted values, bound)
  ∧ ∃ text,
      render (Insert {| Insert_query := self; Insert_values := values;
                        upsert := upsert |})
      = Ok (text, bound).
Proof.
  intros Htables Hnamed Hcolumns Hnonempty Hvalues bound.
  assert (Hrender : _ValuesQuery__render (Same values) self
                    = Ok (values_sql inserted values, bound)).
  { unfold _ValuesQuery__render, mbind, Render_bind. simpl.
    rewrite Htables. simpl.
    rewrite !bool_decide_eq_true_2; try done.
    2: { unfold columns. by destruct (namespace inserted). }
    simpl.
    rewrite (render_rows_sql inserted values id) by done. simpl.
    rewrite join_trailing by (by destruct values).
    unfold values_sql.
    rewrite <- !string_app_assoc, drop_last_app by done.
    by rewrite !string_app_assoc. }
  split; [exact Hrender|].
  unfold render, InsertQuery__render. simpl.
  rewrite (_iter_same_model inserted) by done.
  unfold mbind at 1. unfold Render_bind at 1. rewrite Hrender.
  unfold mbind, Render_bind. simpl. unfold Query_table. simpl.
  rewrite Htables. simpl.
  destruct upsert; simpl; [|by eexists].
  pose proof (set_clauses_columns inserted (columns inserted)) as Hclauses.
  destruct (set_clauses (columns inserted)); [by eexists|].
  by discriminate Hclauses.
Qed.

End ValuesFacts.

Section ValuesExamples.
#[local] Existing Instance whole_carriers.
#[local] Existing Instance whole_builtins.

Lemma values_rendered_without_validation_witness :
  _ValuesQuery__render (Same [out_of_range_developer])
    (mkQuery ∅ [GameDeveloper])
  = Ok (values_sql GameDeveloper [out_of_range_developer],
        {| parameters :=
             bind_all (values_bindings GameDeveloper [out_of_range_developer])
                      ∅;
           tables := [GameDeveloper] |}).
Proof.
  apply (values_rendered_without_validation GameDeveloper
           [out_of_range_developer] (mkQuery ∅ [GameDeveloper]) false).
  - reflexivity.
  - split; [|by repeat constructor].
    apply (bool_decide_unpack (NoDup _)). vm_compute. exact I.
  - discriminate.
  - discriminate.
  - by repeat constructor.
Defined.

(** The insertion of that developer renders, and binds [2**31] to
    [game_developer_id_0], though the [id] column does not validate
    [2**31]. *)
Lemma insert_binds_invalid_value :
  BaseModel___init__ GameDeveloper
    [("id", PyInt (2 ^ 31)); ("name", RandExpr "RANDOM()")]
  = Ok out_of_range_developer
  ∧ raises (validate GameDeveloper_id (PyInt (2 ^ 31))) ValueError
  ∧ ∃ text bound,
      render (Insert {| Insert_query := mkQuery ∅ [GameDeveloper];
                        Insert_values := [out_of_range_developer];
                        upsert := false |})
      = Ok (text, bound)
      ∧ parameters bound !! "game_developer_id_0" = Some (PyInt (2 ^ 31))
      ∧ contains "(%(game_developer_id_0)s, RANDOM())" text = true.
Proof.
  split; [reflexivity|]. split; [by eexists|].
  eexists _, _. split; [reflexivity|]. split; reflexivity.
Qed.

End ValuesExamples.

(** * Further properties of the column types *)

Section ColumnConstruction.
Context `{Builtins}.

(** X1. A column that [Column.__init__] builds keeps the name and the class
    given, has its [table] slot unset, and is unique and not null whenever it
    is a primary key; the empty name is rejected with [ValueError]. *)
Theorem Column_init_constraints (cls : ColumnType) (name_ : string)
    (primary_key_ unique_ not_null_ : bool) (default_ : Default)
    (foreign_key_ : option Column) (column : Column) :
  Column___init__ cls name_ primary_key_ unique_ not_null_ default_
    foreign_key_ = Ok column →
  name_ ≠ ""
  ∧ name column = name_ ∧ ctype column = cls ∧ table column = None
  ∧ primary_key column = primary_key_
  ∧ unique column = unique_ || primary_key_
  ∧ not_null column = not_null_ || primary_key_
  ∧ (primary_key column = true →
     unique column = true ∧ not_null column = true)
  ∧ raises (Column___init__ cls "" primary_key_ unique_ not_null_ default_
              foreign_key_) ValueError.
Proof.
  unfold Column___init__.
  destruct (re_match_word_char name_) eqn:Hname; simpl; [|discriminate].
  intros [= <-]. simpl.
  split; [by intros ->|]. do 6 (split; [done|]). split; [|by eexists].
  intros ->. by rewrite !orb_true_r.
Qed.

End ColumnConstruction.

Section ColumnConstructionWitness.
#[local] Existing Instance whole_carriers.
#[local] Existing Instance whole_builtins.

Lemma Column_init_constraints_witness :
  unique (declared (Column___init__ Serial "id" true false false
                      (Value PyNone) None)) = true.
Proof.
  apply (Column_init_constraints Serial "id" true false false (Value PyNone)
           None _ eq_refl).
  reflexivity.
Defined.

End ColumnConstructionWitness.

Section IterFacts.
Context {A T : Type} `{EqDecision T} (type_ : A → T).

Lemma _iter_from_Some (seen : T) (rest : list A) :
  _iter_from type_ (Some seen) rest = true
  ↔ Forall (λ val, type_ val = seen) rest.
Proof.
  induction rest as [|val rest IH]; simpl.
  - split; [constructor|done].
  - case_bool_decide as Hseen.
    + split; [done|]. intros [Hval _]%Forall_cons. by destruct Hseen.
    + rewrite IH, Forall_cons. naive_solver.
Qed.

Lemma _iter_from_differs (seen : T) (rest : list A) :
  _iter_from type_ (Some seen) rest = false →
  ∃ val, val ∈ rest ∧ type_ val ≠ seen.
Proof.
  induction rest as [|val rest IH]; simpl; [done|].
  case_bool_decide as Hseen.
  - intros _. exists val. split; [by left|done].
  - intros (other & Hin & Hne)%IH. exists other. split; [by right|done].
Qed.

(** X2. [Query._iter] returns a list as it is exactly when all its elements
    have one type, and boxes it otherwise; the empty list and a list of one
    element are returned as they are. *)
Theorem _iter_same_iff (value : list A) :
  (_iter type_ value = Same value
   ↔ ∀ x y, x ∈ value → y ∈ value → type_ x = type_ y)
  ∧ (_iter type_ value = Boxed value
     ↔ ∃ x y, x ∈ value ∧ y ∈ value ∧ type_ x ≠ type_ y)
  ∧ _iter type_ [] = Same []
  ∧ ∀ x, _iter type_ [x] = Same [x].
Proof.
  assert (Hfrom : _iter_from type_ None value = true
                  ↔ ∀ x y, x ∈ value → y ∈ value → type_ x = type_ y).
  { destruct value as [|val rest]; simpl.
    - split; [|done]. intros _ x y Hx. by apply elem_of_nil in Hx.
    - rewrite _iter_from_Some, Forall_forall. split.
      + intros Hall x y Hx Hy.
        assert (Hfirst : ∀ z, z ∈ val :: rest → type_ z = type_ val).
        { intros z [->|Hz]%elem_of_cons; [done|by apply Hall]. }
        by rewrite (Hfirst x), (Hfirst y).
      + intros Hall z Hz. apply Hall; [by right|by left]. }
  split; [|split; [|done]].
  - unfold _iter. rewrite <- Hfrom.
    destruct (_iter_from type_ None value); naive_solver.
  - unfold _iter. destruct (_iter_from type_ None value) eqn:Hsame.
    + split; [done|]. intros (x & y & Hx & Hy & Hne).
      destruct Hne. by apply (proj1 Hfrom).
    + split; [|done]. intros _.
      destruct value as [|val rest]; [done|]. simpl in Hsame.
      destruct (_iter_from_differs _ _ Hsame) as (other & Hin & Hne).
      exists other, val. split; [by right|]. split; [by left|done].
Qed.

End IterFacts.

Section ConversionTotality.
Context `{Builtins}.

Lemma iter_set_singleton (_type : PyType) : iter_set [_type] = [_type].
Proof. apply Permutation_singleton_r. by rewrite iter_set_perm. Qed.

Lemma first_constructed_bool (types : list PyType) (value : PyValue) :
  T_bool ∈ types → is_Some (first_constructed types value).
Proof.
  induction types as [|_type types IH]; intros Hin.
  - by apply elem_of_nil in Hin.
  - simpl. destruct (construct _type value) eqn:Hc; [done|].
    apply IH. apply elem_of_cons in Hin as [<-|Hin]; [done|exact Hin].
Qed.

(** X3. [Boolean.convert] never raises: whatever the value and whatever the
    order in which the set [_TYPES] is iterated, it returns a [bool], an
    [int] or the random expression given. *)
Theorem Boolean_convert_total (value : PyValue) :
  ∃ converted, convert Boolean value = Ok converted
               ∧ type_of converted ∈ [T_RandExpr; T_bool; T_int].
Proof.
  assert (Hbase : ∃ converted, Column_convert Boolean value = Ok converted).
  { unfold Column_convert. case_bool_decide; [by eexists|].
    destruct (first_constructed_bool (iter_set (_TYPES Boolean)) value)
      as [converted ->]; [|by eexists].
    rewrite (iter_set_perm (_TYPES Boolean)). simpl. set_solver. }
  destruct Hbase as [converted Hbase].
  destruct value;
    try (exists converted; split;
         [exact Hbase | by apply Column_convert_type in Hbase]).
  eexists. split; [reflexivity|]. simpl. set_solver.
Qed.

Lemma VarChar_convert (cls : ColumnType) (value : PyValue) :
  is_VarChar cls = true →
  convert cls value
  = Ok (match value with
        | PyStr _ | RandExpr _ => value
        | _ => PyStr (py_str value)
        end).
Proof.
  intros Hcls.
  assert (convert cls value = Column_convert cls value) as ->
    by (by destruct cls).
  assert (_TYPES cls = [T_str]) as Htypes by (by destruct cls).
  unfold Column_convert. rewrite Htypes, iter_set_singleton.
  destruct value; simpl; try done.
Qed.

(** X4. A [VarChar] column, bounded or not, converts every value: a string
    or a random expression to itself, anything else to its [str], so [None]
    to the text "None".  Its validation checks no length: it accepts every
    value except [None] under NOT NULL, and under NOT NULL it rejects [None]
    with [ValueError]. *)
Theorem VarChar_accepts_everything (column : Column) (value : PyValue) :
  is_VarChar (ctype column) = true →
  convert (ctype column) value
  = Ok (match value with
        | PyStr _ | RandExpr _ => value
        | _ => PyStr (py_str value)
        end)
  ∧ convert (ctype column) PyNone = Ok (PyStr "None")
  ∧ (∀ s : string, validate column (PyStr s) = Ok ())
  ∧ (not_null column = false ∨ value ≠ PyNone → validate column value = Ok ())
  ∧ (not_null column = true → raises (validate column PyNone) ValueError).
Proof.
  intros Hcls.
  assert (Hvalidate : ∀ value, validate column value
    = if not_null column && bool_decide (type_of value = T_NoneType)
      then Err (Raise ValueError
                  "Invalid value - NOT NULL constraint violation")
      else Ok ()).
  { intros v. unfold validate, Column_validate.
    rewrite (VarChar_convert _ v Hcls).
    by destruct (ctype column). }
  split; [by apply VarChar_convert|]. split; [by apply VarChar_convert|].
  split; [|split].
  - intros s. rewrite Hvalidate. by rewrite andb_false_r.
  - rewrite Hvalidate. intros [-> | Hvalue]; [done|].
    destruct value; try by rewrite andb_false_r. done.
  - rewrite Hvalidate. intros ->. by eexists.
Qed.

Lemma temporal_convert_None (cls : ColumnType) :
  is_temporal cls = true → raises (convert cls PyNone) TypeError.
Proof.
  destruct cls; try discriminate; intros _; simpl;
    unfold Date_convert, TimeStampTZ_convert, Column_convert;
    simpl; rewrite iter_set_singleton; by eexists.
Qed.

(** X5. [None] never validates on a numeric, date or timestamp column:
    under NOT NULL, and so on every primary key, validation raises
    [ValueError]; on a nullable column it raises [TypeError], because
    conversion of [None] fails.  A nullable [Boolean] column accepts
    [None]. *)
Theorem validate_None (column : Column) :
  (not_null column = true →
   validate column PyNone
   = Err (Raise ValueError "Invalid value - NOT NULL constraint violation"))
  ∧ (not_null column = false →
     is_Numeric (ctype column) || is_temporal (ctype column) = true →
     raises (validate column PyNone) TypeError)
  ∧ (not_null column = false → ctype column = Boolean →
     validate column PyNone = Ok ()).
Proof.
  split; [|split].
  - intros Hnn. unfold validate, _Numeric_validate, Column_validate.
    rewrite Hnn. by destruct (is_Numeric (ctype column)).
  - intros Hnn [Hcls|Hcls]%orb_prop.
    + unfold validate, _Numeric_validate, Column_validate.
      rewrite Hcls, Hnn, Numeric_convert_None by done. by eexists.
    + destruct (temporal_convert_None _ Hcls) as [msg Hmsg].
      unfold validate, Column_validate.
      rewrite Hnn, Hmsg.
      assert (is_Numeric (ctype column) = false) as ->
        by (by destruct (ctype column)).
      by eexists.
  - intros Hnn Hcls. unfold validate, Column_validate. rewrite Hcls, Hnn.
    by destruct (Boolean_convert_total PyNone) as (converted & -> & _).
Qed.

End ConversionTotality.

Section ConversionTotalityWitness.
#[local] Existing Instance whole_carriers.
#[local] Existing Instance whole_builtins.

Lemma VarChar_accepts_everything_witness :
  validate Game_name (PyStr "a name far longer than the column") = Ok ().
Proof.
  apply (VarChar_accepts_everything Game_name PyNone eq_refl).
Defined.

Lemma validate_None_witness :
  raises (validate Game_developer_id PyNone) ValueError.
Proof.
  rewrite (proj1 (validate_None Game_developer_id) eq_refl). by eexists.
Defined.

End ConversionTotalityWitness.

Section ClassGetitem.
Context `{Builtins}.

(** X6. [Numeric[precision, scale]] builds a class exactly when the
    precision is positive and the scale lies between zero and the precision,
    and raises [ValueError] otherwise.  A column of the class built accepts
    an [int] exactly when it lies between [-10**precision] and
    [10**precision], both included; the scale plays no part. *)
Theorem Numeric_class_getitem (uid : nat) (precision scale : Z) :
  (0 < precision ∧ 0 ≤ scale ≤ precision →
   Numeric___class_getitem__ uid precision scale
   = Ok (Numeric_ uid precision scale)
   ∧ ∀ (column : Column) (z : Z),
       ctype column = Numeric_ uid precision scale →
       (validate column (PyInt z) = Ok ()
        ↔ - 10 ^ precision ≤ z ≤ 10 ^ precision))
  ∧ (¬ (0 < precision ∧ 0 ≤ scale ≤ precision) →
     raises (Numeric___class_getitem__ uid precision scale) ValueError).
Proof.
  unfold Numeric___class_getitem__. split.
  - intros [Hp [Hs Hps]].
    rewrite (proj2 (Z.leb_gt _ _)), (proj2 (Z.ltb_ge _ _)),
      (proj2 (Z.ltb_ge _ _)) by lia.
    split; [done|]. intros column z Hcls.
    assert (Hc : convert (ctype column) (PyInt z) = Ok (PyInt z)).
    { rewrite Hcls. simpl. apply Column_convert_accepted. simpl. set_solver. }
    rewrite (_Numeric_validate_converted column (PyInt z) (PyInt z))
      by (by rewrite ?Hcls).
    rewrite Hcls. simpl.
    destruct (Z.leb_spec (- 10 ^ precision) z); simpl;
      [destruct (Z.leb_spec z (10 ^ precision)); simpl|];
      split; try done; lia.
  - intros Hbad.
    destruct (Z.leb_spec precision 0); simpl; [by eexists|].
    destruct (Z.ltb_spec scale 0); simpl; [by eexists|].
    destruct (Z.ltb_spec precision scale); [by eexists|]. lia.
Qed.

End ClassGetitem.

Section ClassGetitemWitness.
#[local] Existing Instance whole_carriers.
#[local] Existing Instance whole_builtins.

Lemma Numeric_class_getitem_witness :
  Numeric___class_getitem__ 3 6 2 = Ok (Numeric_ 3 6 2).
Proof.
  apply (proj1 (Numeric_class_getitem 3 6 2)). lia.
Defined.

End ClassGetitemWitness.

(** * Further properties of model instances *)

Section InstanceFacts.
Context `{Builtins}.




End InstanceFacts.

Section InstanceWitness.
#[local] Existing Instance whole_carriers.
#[local] Existing Instance whole_builtins.

Lemma GameDeveloper_named_after_columns : named_after_columns GameDeveloper.
Proof.
  split; [|by repeat constructor].
  apply (bool_decide_unpack (NoDup _)). vm_compute. exact I.
Qed.




End InstanceWitness.

(** * Further properties of expressions and filter queries *)

Section ComparatorFacts.
Context `{Builtins}.

Lemma singleton_overwrite (parameter : string) (v1 v2 : PyValue) :
  ({[parameter := v2]} : gmap string PyValue) ∪ ({[parameter := v1]} ∪ ∅)
  = {[parameter := v2]}.
Proof.
  apply map_eq. intros k.
  rewrite !lookup_union, lookup_empty.
  destruct (decide (k = parameter)) as [->|Hne].
  - by rewrite !lookup_singleton_eq.
  - by rewrite !lookup_singleton_ne.
Qed.

(** X9. A comparison of a column with a literal validates the literal
    first and fails with the error of the validation, building nothing.  Two
    comparisons of one column with two valid literals through one operator
    give the same fragment and the same parameter name,
    [<table>_<column>_<operator>]; combined by [and_] they leave one
    binding, the second literal, for both placeholders. *)
Theorem same_column_literals_collide (operator name_ : string)
    (self : Column) (owner : MetaModel) (v1 v2 : PyValue) :
  table self = Some owner →
  validate self v1 = Ok () →
  validate self v2 = Ok () →
  let parameter := __table__ owner +:+ "_" +:+ name self +:+ "_" +:+ name_ in
  ∃ fragment,
    operator_factory operator name_ self (OfValue v1)
    = Ok (fragment, Some {[parameter := v1]})
    ∧ operator_factory operator name_ self (OfValue v2)
      = Ok (fragment, Some {[parameter := v2]})
    ∧ and_ [(fragment, Some {[parameter := v1]});
            (fragment, Some {[parameter := v2]})]
      = ("(" +:+ fragment +:+ " AND " +:+ fragment +:+ ")",
         Some {[parameter := v2]})
    ∧ ∀ value e, validate self value = Err e →
        operator_factory operator name_ self (OfValue value) = Err e.
Proof.
  intros Htable Hv1 Hv2 parameter.
  unfold operator_factory, Column___str__, Column_table.
  rewrite Hv1, Hv2, Htable. simpl.
  eexists. split; [reflexivity|]. split; [reflexivity|]. split.
  - unfold and_, _logical_expr_factory. simpl.
    rewrite singleton_overwrite, !string_app_assoc. reflexivity.
  - by intros value e ->.
Qed.

End ComparatorFacts.

Section ComparatorWitness.
#[local] Existing Instance whole_carriers.
#[local] Existing Instance whole_builtins.

Lemma same_column_literals_collide_witness :
  ∃ fragment,
    Column___gt__ Game_id (OfValue (PyInt 1))
    = Ok (fragment, Some {["game_id_gt" := PyInt 1]})
    ∧ Column___gt__ Game_id (OfValue (PyInt 5))
      = Ok (fragment, Some {["game_id_gt" := PyInt 5]}).
Proof.
  destruct (same_column_literals_collide ">" "gt" Game_id Game
              (PyInt 1) (PyInt 5) eq_refl eq_refl eq_refl)
    as (fragment & H1 & H5 & _).
  exists fragment. by split.
Defined.

End ComparatorWitness.

Section FilterFacts.
Context `{Builtins}.

Lemma for__cons {A S : Type} (item : A) (rest : list A)
    (body : S → A → Render S) (acc : S) (self : Query) :
  for_ (item :: rest) body acc self
  = match body acc item self with
    | Ok (acc, self) => for_ rest body acc self
    | Err e => Err e
    end.
Proof. reflexivity. Qed.

(** The loop over [self.filters], from any values of [query_filters] and of
    the parameters. *)
Lemma render_filters_loop (filters : list Expression)
    (query_filters : list string) (self : Query) :
  ∃ merged,
    for_ filters
      (λ query_filters '(expression, parameter),
         let query_filters := query_filters ++ [expression] in
         _ ← match parameter with
             | Some parameter => parameters_update parameter
             | None => mret ()
             end;
         mret query_filters) query_filters self
    = Ok (query_filters ++ (fst <$> filters),
          {| parameters := merged; tables := tables self |})
    ∧ ∀ k, merged !! k = match last_binding k filters with
                         | Some value => Some value
                         | None => parameters self !! k
                         end.
Proof.
  set (body := λ (query_filters : list string) (filter : Expression),
         let '(expression, parameter) := filter in
         let query_filters := query_filters ++ [expression] in
         _ ← match parameter with
             | Some parameter => parameters_update parameter
             | None => mret ()
             end;
         mret query_filters).
  revert query_filters self.
  induction filters as [|[expression parameter] filters IH];
    intros query_filters self.
  - exists (parameters self). rewrite app_nil_r. by destruct self.
  - destruct (IH (query_filters ++ [expression])
                {| parameters := default ∅ parameter ∪ parameters self;
                   tables := tables self |})
      as (merged & Hloop & Hlookup).
    exists merged. split.
    + rewrite for__cons. unfold body at 1. cbv beta iota.
      unfold mbind, Render_bind, parameters_update, mret, Render_ret.
      destruct parameter as [parameter|]; cbv beta iota.
      * simpl in Hloop. by rewrite Hloop, <- app_assoc.
      * simpl in Hloop. rewrite (left_id_L ∅ (∪)) in Hloop.
        destruct self. simpl in *. by rewrite Hloop, <- app_assoc.
    + intros k. rewrite Hlookup. simpl. rewrite lookup_update.
      by destruct (last_binding k filters).
Qed.

(** X10. The [WHERE] step never fails and leaves the tables as they are.
    With no filter it changes nothing; otherwise it appends the fragments
    joined by [AND] after [WHERE], and gives every parameter name the value
    of the last filter binding it, or else the value it had. *)
Theorem render_filters_where (filters : list Expression) (query : string)
    (self : Query) :
  render_filters [] query self = Ok (query, self)
  ∧ ∃ merged,
      render_filters filters query self
      = Ok (if bool_decide (filters = []) then query
            else query +:+ LF +:+ "WHERE" +:+ LF +:+ TAB
                 +:+ join (LF +:+ TAB +:+ "AND" +:+ LF +:+ TAB)
                          (fst <$> filters),
            {| parameters := merged; tables := tables self |})
      ∧ ∀ k, merged !! k = match last_binding k filters with
                           | Some value => Some value
                           | None => parameters self !! k
                           end.
Proof.
  split; [done|]. unfold render_filters.
  destruct filters as [|filter filters].
  - exists (parameters self). by destruct self.
  - rewrite bool_decide_eq_true_2, bool_decide_eq_false_2 by done.
    destruct (render_filters_loop (filter :: filters) [] self)
      as (merged & Hloop & Hlookup).
    exists merged. split; [|exact Hlookup].
    cbv zeta in Hloop |- *. unfold mbind at 1. unfold Render_bind at 1.
    cbv beta. rewrite Hloop. simpl. by rewrite !string_app_assoc.
Qed.

(** X11. The joins of a filter query only append tables: when the loop over
    the joins succeeds, the parameters are as before and the tables are the
    former ones followed by one new table for each join. *)
Theorem render_joins_appends (joins : list JoinFunc) (query text : string)
    (self rendered : Query) :
  render_joins joins query self = Ok (text, rendered) →
  parameters rendered = parameters self
  ∧ ∃ added, tables rendered = tables self ++ added
             ∧ length added = length joins.
Proof.
  unfold render_joins.
  match goal with |- context [for_ _ ?b _ _] => set (body := b) end.
  revert query self.
  induction joins as [|join joins IH]; intros query self.
  - intros [= <- <-]. split; [done|]. exists []. by rewrite app_nil_r.
  - rewrite for__cons. unfold body at 1.
    unfold mbind, Render_bind, get_tables, lift, tables_append, mret,
      Render_ret.
    destruct (join (tables self)) as [[expression table]|]; [|done].
    intros (Hparameters & added & Htables & Hlength)%IH. simpl in *.
    split; [done|]. exists (table :: added).
    rewrite Htables, <- app_assoc. split; [done|]. simpl. by rewrite Hlength.
Qed.

Lemma join_clause_first_joined (keyword : string) (first second : Column)
    (A B : MetaModel) (joined : Joined) :
  table first = Some A → table second = Some B →
  table_in A joined = true →
  join_clause keyword first second joined
  = Ok (join_sql keyword B A B first second, B).
Proof.
  intros HA HB Hin.
  unfold join_clause, Column___eq__, operator_factory, Column___str__,
    Column_table.
  rewrite HA, HB. simpl. rewrite Hin. unfold join_sql, on_condition.
  rewrite !string_app_assoc. reflexivity.
Qed.

Lemma table_in_app_self (table : MetaModel) (tables : list MetaModel) :
  table_in table (tables ++ [table]) = true.
Proof.
  unfold table_in. rewrite existsb_app. simpl.
  unfold MetaModel_is. rewrite bool_decide_eq_true_2 by done.
  by rewrite orb_true_r.
Qed.

(** X12. A join brings its table into scope for [ORDER BY].  Ordering by a
    column of a table that is not among the query's tables raises
    [ValueError]; after a join of that table the same ordering renders, and
    the query's tables end with the joined table. *)
Theorem joined_table_in_scope (keyword : string)
    (first second column : Column) (A B : MetaModel) (self : Query) :
  table first = Some A → table second = Some B → table column = Some B →
  table_in A (tables self) = true →
  table_in B (tables self) = false →
  raises (_FilterQuery__render (ordered column true) self) ValueError
  ∧ _FilterQuery__render
      {| joins := [join_clause keyword first second]; filters := [];
         order_by := Some column; ascending := true;
         limit := PyNone; offset := PyNone |} self
    = Ok (strip (LF +:+ join_sql keyword B A B first second +:+ " "
                 +:+ LF +:+ "ORDER BY "
                 +:+ dq +:+ __table__ B +:+ dq +:+ "."
                 +:+ dq +:+ name column +:+ dq +:+ " ASC"),
          {| parameters := parameters self; tables := tables self ++ [B] |}).
Proof.
  intros HA HB Hcolumn HinA HinB. split.
  - unfold _FilterQuery__render, ordered, mbind, Render_bind. simpl.
    unfold mbind, Render_bind, lift, Column_table. rewrite Hcolumn. simpl.
    rewrite HinB. simpl. by eexists.
  - unfold _FilterQuery__render, render_joins, mbind, Render_bind. simpl.
    unfold mbind, Render_bind, lift. simpl.
    rewrite (join_clause_first_joined _ _ _ A B) by done. simpl.
    unfold Column___str__, Column_table. rewrite Hcolumn. simpl.
    rewrite table_in_app_self. simpl.
    by rewrite !string_app_assoc.
Qed.

End FilterFacts.

Section FilterWitness.
#[local] Existing Instance whole_carriers.
#[local] Existing Instance whole_builtins.

Lemma render_joins_appends_witness :
  parameters {| parameters := ∅; tables := [GameDeveloper; Game] |}
  = parameters {| parameters := ∅; tables := [GameDeveloper] |}.
Proof.
  apply (render_joins_appends [join_ Game_developer_id GameDeveloper_id] ""
           (LF +:+ join_sql "JOIN" Game Game GameDeveloper
                     Game_developer_id GameDeveloper_id +:+ " ")
           (mkQuery ∅ [GameDeveloper]) (mkQuery ∅ [GameDeveloper; Game])).
  reflexivity.
Defined.

Lemma joined_table_in_scope_witness :
  raises (_FilterQuery__render (ordered GameDeveloper_id true)
            (mkQuery ∅ [Game])) ValueError.
Proof.
  apply (joined_table_in_scope "JOIN" Game_developer_id GameDeveloper_id
           GameDeveloper_id Game GameDeveloper (mkQuery ∅ [Game]));
    reflexivity.
Defined.

End FilterWitness.

(** * Further properties of the update, insert and select queries *)

Section UpdateFacts.
Context `{Builtins}.

Lemma column_named_spec (cls : MetaModel) (key : string) (column : Column) :
  column_named cls key = Some column →
  name column = key ∧ table column = Some cls
  ∧ ∃ i, list_find (λ column, name column = key) (columns cls)
         = Some (i, column).
Proof.
  unfold column_named.
  destruct (list_find _ _) as [[i found]|] eqn:Hfind; [|done].
  intros [= <-]. apply list_find_Some in Hfind as Hfound.
  destruct Hfound as (Hlookup & Hname & _).
  split; [done|]. split; [|by exists i].
  apply columns_table. by eapply list_elem_of_lookup_2.
Qed.

(** One pass of the loop over the items of an update. *)
Lemma render_assignment_valid (table : MetaModel) (others : list MetaModel)
    (query updated_column : string) (item : string * PyValue)
    (self : Query) :
  tables self = table :: others →
  valid_item table item →
  render_assignment (query, updated_column) item self
  = Ok ((query +:+ assignment_sql table item +:+ ",", item.1),
        {| parameters :=
             <[(assignment_binding table item).1 := item.2]> (parameters self);
           tables := tables self |}).
Proof.
  intros Htables (column & Hnamed & Hvalid). destruct item as [key value].
  destruct (column_named_spec _ _ _ Hnamed) as (Hname & Htable & i & Hfind).
  simpl in *. unfold render_assignment, mbind, Render_bind, get_table, lift,
    Query_table, table_columns, Column_table, parameters_setitem.
  rewrite Htables. cbv beta iota. rewrite Hfind, Hvalid, Htable. simpl.
  unfold assignment_sql. simpl. rewrite Hname, !string_app_assoc, ?Htables.
  reflexivity.
Qed.

(** The whole loop, over valid items. *)
Lemma render_assignments_valid (table : MetaModel) (others : list MetaModel)
    (items : list (string * PyValue)) (query updated_column : string)
    (self : Query) :
  tables self = table :: others →
  Forall (valid_item table) items →
  for_ items render_assignment (query, updated_column) self
  = Ok ((query +:+ foldr (λ assignment text, assignment +:+ "," +:+ text) ""
                     (assignment_sql table <$> items),
         default updated_column (fst <$> last items)),
        {| parameters :=
             bind_all (assignment_binding table <$> items) (parameters self);
           tables := tables self |}).
Proof.
  intros Htables Hitems. revert query updated_column self Htables.
  induction Hitems as [|item items Hitem _ IH];
    intros query updated_column self Htables.
  - simpl. rewrite string_app_nil_r. destruct self. reflexivity.
  - rewrite for__cons, (render_assignment_valid _ _ _ _ _ _ Htables Hitem).
    rewrite IH by done. simpl. rewrite !string_app_assoc.
    do 3 f_equal. destruct items as [|item' items']; [done|].
    rewrite last_cons_cons.
    by destruct (proj2 (last_is_Some (item' :: items'))) as [? ->].
Qed.

(** X13. An update of the primary table whose items all name a column and
    hold a value that column validates renders
    [UPDATE <table> SET <column> = %(<table>_<column>)s, ...], then what the
    filter part renders, then [RETURNING] the last key; every value is bound
    under [<table>_<column>] before the filter part is rendered, and the
    update fails only if the filter part does. *)
Theorem update_renders_assignments (table : MetaModel)
    (others : list MetaModel) (items : list (string * PyValue))
    (filter : _FilterQuery) (self : Query) (last_key : string) :
  tables self = table :: others →
  Forall (valid_item table) items →
  fst <$> last items = Some last_key →
  render (Update {| Update_query := self; Update_filter := filter;
                    Update_values := items |})
  = match _FilterQuery__render filter
            {| parameters :=
                 bind_all (assignment_binding table <$> items)
                          (parameters self);
               tables := tables self |} with
    | Ok (filter_query, rendered) =>
        Ok ("UPDATE " +:+ MetaModel___str__ table +:+ LF +:+ "SET"
            +:+ join "," (assignment_sql table <$> items) +:+ LF
            +:+ filter_query +:+ LF +:+ "RETURNING " +:+ last_key, rendered)
    | Err e => Err e
    end.
Proof.
  intros Htables Hitems Hlast.
  assert (Hne : items ≠ []) by (by intros ->).
  unfold render, UpdateQuery__render. simpl.
  rewrite bool_decide_eq_true_2 by done.
  unfold mbind at 1. unfold Render_bind at 1. unfold get_table at 1.
  cbv beta iota zeta.
  unfold mbind at 1. unfold Render_bind at 1.
  rewrite (render_assignments_valid table others) by done.
  rewrite Hlast. simpl.
  unfold mbind, Render_bind.
  destruct (_FilterQuery__render filter _) as [[filter_query rendered]|];
    [|done].
  simpl. unfold Query_table. rewrite Htables. simpl.
  rewrite join_trailing by (by destruct items).
  rewrite <- !string_app_assoc, drop_last_app by done.
  by rewrite !string_app_assoc.
Qed.

(** X14. An update stops at its first bad item: after items that are all
    valid, a key that names no column of the primary table raises
    [ValueError], and a value its column does not validate raises the error
    of the validation; in both cases nothing is rendered, whatever follows
    and whatever the filter part. *)
Theorem update_stops_at_bad_item (table : MetaModel) (others : list MetaModel)
    (valid : list (string * PyValue)) (key : string) (value : PyValue)
    (rest : list (string * PyValue)) (filter : _FilterQuery) (self : Query) :
  tables self = table :: others →
  Forall (valid_item table) valid →
  let update :=
    render (Update {| Update_query := self; Update_filter := filter;
                      Update_values := valid ++ (key, value) :: rest |}) in
  (column_named table key = None → raises update ValueError)
  ∧ (∀ column e, column_named table key = Some column →
       validate column value = Err e → update = Err e).
Proof.
  intros Htables Hvalid update.
  assert (Hloop : ∀ query updated_column outcome self',
    tables self' = table :: others →
    (∀ query updated_column self', tables self' = table :: others →
       render_assignment (query, updated_column) (key, value) self'
       = Err outcome) →
    for_ (valid ++ (key, value) :: rest) render_assignment
         (query, updated_column) self' = Err outcome).
  { intros query updated_column outcome self' Htables' Hbad.
    revert query updated_column self' Htables'.
    induction Hvalid as [|item valid Hitem _ IH];
      intros query updated_column self' Htables'.
    - rewrite app_nil_l, for__cons. by rewrite Hbad.
    - rewrite <- app_comm_cons, for__cons.
      rewrite (render_assignment_valid _ _ _ _ _ _ Htables' Hitem).
      by apply IH. }
  assert (Hupdate : ∀ outcome,
    (∀ query updated_column self', tables self' = table :: others →
       render_assignment (query, updated_column) (key, value) self'
       = Err outcome) →
    update = Err outcome).
  { intros outcome Hbad. unfold update, render, UpdateQuery__render. simpl.
    rewrite bool_decide_eq_true_2 by (by destruct valid).
    unfold mbind at 1. unfold Render_bind at 1. unfold get_table at 1.
    cbv beta iota zeta.
    unfold mbind at 1. unfold Render_bind at 1.
    by rewrite (Hloop _ _ outcome _ Htables Hbad). }
  split.
  - intros Hnone. eexists. apply Hupdate.
    intros query updated_column self' Htables'.
    unfold render_assignment, mbind, Render_bind, get_table, lift,
      Query_table, table_columns.
    rewrite Htables'. cbv beta iota.
    unfold column_named in Hnone.
    destruct (list_find _ (columns table)); [done|]. reflexivity.
  - intros column e Hnamed Hinvalid. apply Hupdate.
    intros query updated_column self' Htables'.
    destruct (column_named_spec _ _ _ Hnamed) as (_ & _ & i & Hfind).
    unfold render_assignment, mbind, Render_bind, get_table, lift,
      Query_table, table_columns.
    rewrite Htables'. cbv beta iota. by rewrite Hfind, Hinvalid.
Qed.

End UpdateFacts.

Section UpdateWitness.
#[local] Existing Instance whole_carriers.
#[local] Existing Instance whole_builtins.

Lemma Game_name_valid : valid_item Game ("name", PyStr "Foo").
Proof. exists Game_name. split; reflexivity. Qed.

Lemma update_renders_assignments_witness :
  text_of (render (Update {| Update_query := mkQuery ∅ [Game];
                             Update_filter := no_filter;
                             Update_values := [("name", PyStr "Foo")] |}))
  = Ok ("UPDATE " +:+ MetaModel___str__ Game +:+ LF +:+ "SET"
        +:+ LF +:+ TAB +:+ "name = %(game_name)s" +:+ LF +:+ LF
        +:+ "RETURNING name").
Proof.
  rewrite (update_renders_assignments Game [] [("name", PyStr "Foo")]
             no_filter (mkQuery ∅ [Game]) "name" eq_refl
             (Forall_cons_2 _ _ _ Game_name_valid (Forall_nil_2 _)) eq_refl).
  reflexivity.
Defined.

Lemma update_stops_at_bad_item_witness :
  render (Update {| Update_query := mkQuery ∅ [Game];
                    Update_filter := no_filter;
                    Update_values := [("name", PyStr "Foo");
                                      ("id", PyInt (-1))] |})
  = Err (Raise ValueError "Invalid value for type - must be in range").
Proof.
  apply (proj2 (update_stops_at_bad_item Game [] [("name", PyStr "Foo")]
                  "id" (PyInt (-1)) [] no_filter (mkQuery ∅ [Game]) eq_refl
                  (Forall_cons_2 _ _ _ Game_name_valid (Forall_nil_2 _)))
           Game_id); reflexivity.
Defined.

End UpdateWitness.

Section StripFacts.

Lemma ends_nonspace_app (s t : string) :
  ends_nonspace t → ends_nonspace (s +:+ t).
Proof.
  intros (before & c & -> & Hc). exists (s +:+ before), c.
  by rewrite string_app_assoc.
Qed.

Lemma rstrip_ends_nonspace (s : string) : ends_nonspace s → rstrip s = s.
Proof.
  intros (before & c & -> & Hc).
  induction before as [|a before IH].
  - simpl. by rewrite Hc.
  - rewrite string_app_cons. simpl. rewrite IH.
    by destruct before.
Qed.

End StripFacts.

Section InsertFacts.
Context `{Builtins}.

Lemma _iter_boxed {A T : Type} `{EqDecision T} (type_ : A → T)
    (value : list A) (x y : A) :
  x ∈ value → y ∈ value → type_ x ≠ type_ y →
  _iter type_ value = Boxed value.
Proof.
  intros Hx Hy Hne. unfold _iter.
  destruct (_iter_from type_ None value) eqn:Hsame; [|done].
  destruct Hne. destruct value as [|val rest]; [by apply elem_of_nil in Hx|].
  simpl in Hsame. apply _iter_from_Some in Hsame.
  rewrite Forall_forall in Hsame.
  assert (Hfirst : ∀ z, z ∈ val :: rest → type_ z = type_ val).
  { intros z [->|Hz]%elem_of_cons; [done|by apply Hsame]. }
  by rewrite (Hfirst x), (Hfirst y).
Qed.

Lemma columns_nonempty (cls : MetaModel) :
  namespace cls ≠ [] → columns cls ≠ [].
Proof. unfold columns. by destruct (namespace cls). Qed.


Lemma column_strs_columns (cls : MetaModel) (cols : list Column) :
  cols ⊆ columns cls → column_strs cols = Ok (column_str cls <$> cols).
Proof.
  induction cols as [|column cols IH]; intros Hsub; [done|].
  simpl. unfold Column___str__, Column_table.
  rewrite (columns_table cls column) by set_solver. simpl.
  by rewrite IH by set_solver.
Qed.

Lemma set_clauses_exact (cls : MetaModel) (cols : list Column) :
  cols ⊆ columns cls →
  set_clauses cols
  = Ok ((λ column, dq +:+ name column +:+ dq +:+ " = "
                   +:+ column_str cls column) <$> cols).
Proof.
  induction cols as [|column cols IH]; intros Hsub; [done|].
  simpl. unfold Column___str__, Column_table.
  rewrite (columns_table cls column) by set_solver. simpl.
  by rewrite IH by set_solver.
Qed.

(** The VALUES text and the bindings of an insertion into one table. *)
Lemma _ValuesQuery__render_sql (inserted : MetaModel)
    (values : list BaseModel) (self : Query) :
  tables self = [inserted] →
  named_after_columns inserted →
  namespace inserted ≠ [] →
  values ≠ [] →
  Forall (λ value, model value = inserted) values →
  _ValuesQuery__render (Same values) self
  = Ok (values_sql inserted values,
        {| parameters :=
             bind_all (values_bindings inserted values) (parameters self);
           tables := tables self |}).
Proof.
  intros Htables Hnamed Hcolumns Hnonempty Hvalues.
  unfold _ValuesQuery__render, mbind, Render_bind. simpl.
  rewrite Htables. simpl.
  rewrite !bool_decide_eq_true_2 by (done || by apply columns_nonempty).
  simpl.
  rewrite (render_rows_sql inserted values id) by done. simpl.
  rewrite join_trailing by (by destruct values).
  unfold values_sql.
  rewrite <- !string_app_assoc, drop_last_app by done.
  rewrite !string_app_assoc, Htables. reflexivity.
Qed.

(** X16. The whole statement of an insertion, into one table whose column
    attributes are named after their columns, of instances of its class:
    [INSERT INTO <table> (<columns>)], the VALUES tuples, then
    [ON CONFLICT (<primary keys>) DO NOTHING] and [RETURNING (<columns>)].
    With [upsert] set, an [ON CONFLICT ... DO UPDATE ... SET] clause comes
    before the [DO NOTHING] clause, which stays. *)
Theorem insert_statement (inserted : MetaModel) (values : list BaseModel)
    (self : Query) (upsert_ : bool) :
  tables self = [inserted] →
  named_after_columns inserted →
  namespace inserted ≠ [] →
  values ≠ [] →
  Forall (λ value, model value = inserted) values →
  text_of (render (Insert {| Insert_query := self; Insert_values := values;
                             upsert := upsert_ |}))
  = Ok (insert_sql inserted values upsert_).
Proof.
  intros Htables Hnamed Hcolumns Hnonempty Hvalues.
  unfold render, InsertQuery__render. simpl.
  rewrite (_iter_same_model inserted) by done.
  unfold mbind at 1. unfold Render_bind at 1.
  rewrite (_ValuesQuery__render_sql inserted) by done.
  unfold mbind, Render_bind. simpl. unfold Query_table. simpl.
  rewrite Htables. simpl.
  assert (Hstrip : ∀ text : string,
            ends_nonspace text →
            strip ("INSERT INTO " +:+ text) = "INSERT INTO " +:+ text).
  { intros text Hends. unfold strip.
    by rewrite (rstrip_ends_nonspace _ (ends_nonspace_app _ _ Hends)). }
  destruct upsert_; simpl.
  - rewrite (set_clauses_exact inserted) by done. simpl.
    unfold insert_sql, upsert_sql. rewrite !string_app_assoc.
    rewrite Hstrip; [done|].
    repeat apply ends_nonspace_app. by exists "", ")"%char.
  - unfold insert_sql. rewrite !string_app_assoc.
    rewrite Hstrip; [done|].
    repeat apply ends_nonspace_app. by exists "", ")"%char.
Qed.

End InsertFacts.

Section InsertWitness.
#[local] Existing Instance whole_carriers.
#[local] Existing Instance whole_builtins.


Lemma insert_statement_witness :
  text_of (render (Insert {| Insert_query := mkQuery ∅ [GameDeveloper];
                             Insert_values := [out_of_range_developer];
                             upsert := true |}))
  = Ok (insert_sql GameDeveloper [out_of_range_developer] true).
Proof.
  apply (insert_statement GameDeveloper [out_of_range_developer]
           (mkQuery ∅ [GameDeveloper]) true eq_refl
           GameDeveloper_named_after_columns).
  - discriminate.
  - discriminate.
  - by repeat constructor.
Defined.

End InsertWitness.

Section SelectFacts.
Context `{Builtins}.

Lemma nonempty_join_column_strs (sep : string) (cls : MetaModel)
    (cols : list Column) :
  cols ≠ [] → nonempty (join sep (column_str cls <$> cols)) = true.
Proof. destruct cols as [|column [|column' cols]]; done. Qed.

(** X17. A selection with no explicit column selects every column of the
    primary table, in the order of the class's attributes, as
    ["<table>"."<column>"], from [<schema>.<table>], followed by what the
    filter part renders; it fails only if the filter part does.  On a table
    with no column it renders the empty text and changes nothing. *)
Theorem select_all_columns (table : MetaModel) (others : list MetaModel)
    (filter : _FilterQuery) (self : Query) :
  tables self = table :: others →
  render (Select {| Select_query := self; Select_filter := filter;
                    Select_columns := [] |})
  = if bool_decide (namespace table = []) then Ok ("", self)
    else
      match _FilterQuery__render filter self with
      | Ok (filter_query, rendered) =>
          Ok (strip (select_sql (column_str table <$> columns table)
                       (Some table) +:+ filter_query), rendered)
      | Err e => Err e
      end.
Proof.
  intros Htables. unfold render, SelectQuery__render. simpl.
  unfold mbind, Render_bind, get_table, lift, Query_table. simpl.
  rewrite Htables. simpl.
  rewrite (column_strs_columns table) by done.
  case_bool_decide as Hcolumns.
  - unfold columns. by rewrite Hcolumns.
  - rewrite nonempty_join_column_strs by (by apply columns_nonempty).
    destruct (_FilterQuery__render filter self) as [[filter_query ?]|];
      [|done].
    simpl. unfold select_sql. by rewrite !string_app_assoc.
Qed.

(** X18. Explicit columns are selected by name only when they all have one
    class.  When two of them differ in class the list is boxed by [_iter]
    and the selection list is one item, the [str] of the list: the object
    representations of the columns between square brackets. *)
Theorem select_mixed_columns (selected : list Column) (x y : Column)
    (filter : _FilterQuery) (self : Query) :
  x ∈ selected → y ∈ selected → ctype x ≠ ctype y →
  render (Select {| Select_query := self; Select_filter := filter;
                    Select_columns := selected |})
  = match _FilterQuery__render filter self with
    | Ok (filter_query, rendered) =>
        Ok (strip (select_sql
                     ["[" +:+ join ", "
                                ((λ column, object_repr (ctype column)
                                              (name column)) <$> selected)
                      +:+ "]"]
                     (Query_table self) +:+ filter_query), rendered)
    | Err e => Err e
    end.
Proof.
  intros Hx Hy Hne. unfold render, SelectQuery__render. simpl.
  rewrite (_iter_boxed ctype selected x y) by done.
  unfold mbind, Render_bind, get_table, lift. simpl.
  destruct (_FilterQuery__render filter self) as [[filter_query ?]|];
    [|done].
  simpl. unfold select_sql. simpl. by rewrite !string_app_assoc.
Qed.

End SelectFacts.

Section SelectWitness.
#[local] Existing Instance whole_carriers.
#[local] Existing Instance whole_builtins.

Lemma select_all_columns_witness :
  render (Select {| Select_query := mkQuery ∅ [GameDeveloper];
                    Select_filter := no_filter; Select_columns := [] |})
  = Ok (strip (select_sql (column_str GameDeveloper <$> columns GameDeveloper)
                 (Some GameDeveloper) +:+ ""),
        mkQuery ∅ [GameDeveloper]).
Proof.
  rewrite (select_all_columns GameDeveloper [] no_filter
             (mkQuery ∅ [GameDeveloper]) eq_refl).
  reflexivity.
Defined.

Lemma select_mixed_columns_witness :
  text_of (render (Select {| Select_query := mkQuery ∅ [Game];
                             Select_filter := no_filter;
                             Select_columns := [Game_id; Game_name] |}))
  = Ok ("SELECT" +:+ LF +:+ TAB
        +:+ "[<SERIAL object>, <VARCHAR(128) object>]" +:+ LF
        +:+ "FROM " +:+ MetaModel___str__ Game).
Proof.
  rewrite (select_mixed_columns [Game_id; Game_name] Game_id Game_name
             no_filter (mkQuery ∅ [Game])).
  - reflexivity.
  - vm_compute. repeat constructor.
  - vm_compute. repeat constructor.
  - discriminate.
Defined.

End SelectWitness.

(** ** Valid limits and offsets *)

Section ValidBoundFacts.
Context `{Builtins}.

Lemma render_bound_valid (clause message : string) (bound : PyValue)
    (query : string) (self : Query) :
  py_bool bound = true → non_negative_int bound = true →
  render_bound clause message bound query self
  = Ok (query +:+ LF +:+ clause +:+ " " +:+ py_str bound +:+ " ", self).
Proof.
  intros Htruthy Hvalid. unfold render_bound. rewrite Htruthy.
  unfold non_negative_int in Hvalid.
  destruct bound as [|b|z| | | | | |]; simpl in *; try done.
  - by destruct b.
  - apply Z.leb_le in Hvalid. by rewrite (proj2 (Z.ltb_ge z 0) Hvalid).
Qed.

(** X19. A truthy limit and a truthy offset that are non-negative integers
    only add text: where the query renders with both unset, it renders with
    both set, to the same parameters and tables, and its text is the text
    before stripping followed by [LIMIT <limit>] and then
    [OFFSET <offset>].  [True] is such a bound: alone it renders
    [LIMIT True]. *)
Theorem valid_bounds_append (self : _FilterQuery) (limit_ offset_ : PyValue)
    (query rendered : Query) (text : string) :
  py_bool limit_ = true → non_negative_int limit_ = true →
  py_bool offset_ = true → non_negative_int offset_ = true →
  _FilterQuery__render (with_offset (with_limit self PyNone) PyNone) query
  = Ok (text, rendered) →
  (∃ body,
     text = strip body
     ∧ _FilterQuery__render (with_offset (with_limit self limit_) offset_)
         query
       = Ok (strip (body +:+ LF +:+ "LIMIT" +:+ " " +:+ py_str limit_ +:+ " "
                    +:+ LF +:+ "OFFSET" +:+ " " +:+ py_str offset_ +:+ " "),
             rendered))
  ∧ _FilterQuery__render
      {| joins := []; filters := []; order_by := None;
         ascending := ascending self; limit := PyBool true;
         offset := PyNone |} query
    = Ok ("LIMIT True", query).
Proof.
  intros Hlimit Hlimit' Hoffset Hoffset'.
  unfold _FilterQuery__render, mbind, Render_bind. simpl.
  destruct (render_joins _ _ _) as [[joined ?]|?]; [|done].
  destruct (render_filters _ _ _) as [[filtered ?]|?]; [|done].
  destruct (render_order_by _ _ _ _) as [[body self']|?]; [|done].
  intros [= <- <-]. split; [|done].
  exists body. split; [done|].
  rewrite !render_bound_valid by done.
  simpl. by rewrite !string_app_assoc.
Qed.

End ValidBoundFacts.

Section ValidBoundWitness.
#[local] Existing Instance whole_carriers.
#[local] Existing Instance whole_builtins.

Lemma valid_bounds_append_witness :
  ∃ body,
    "" = strip body
    ∧ _FilterQuery__render
        (with_offset (with_limit no_filter (PyInt 10)) (PyInt 20))
        (mkQuery ∅ [Game])
      = Ok (strip (body +:+ LF +:+ "LIMIT" +:+ " " +:+ py_str (PyInt 10)
                   +:+ " " +:+ LF +:+ "OFFSET" +:+ " " +:+ py_str (PyInt 20)
                   +:+ " "),
            mkQuery ∅ [Game]).
Proof.
  apply (proj1 (valid_bounds_append no_filter (PyInt 10) (PyInt 20)
                  (mkQuery ∅ [Game]) (mkQuery ∅ [Game]) ""
                  eq_refl eq_refl eq_refl eq_refl eq_refl)).
Defined.

End ValidBoundWitness.
